(** * LP-Life-Plus: the lead-submission and e-mail verification route handlers

    A shallow embedding of [src/app/api/submit-waitlist/route.js]: the
    [POST] handler that appends a lead to a spreadsheet and the [GET]
    handler that verifies an e-mail token, provisions the tenant's user and
    issues the session cookie.

    The handlers are sequences of calls to collaborators (the token library,
    the database, the cookie store, the spreadsheet API, the URL
    constructor, the clock).  A [World] fixes how each collaborator answers;
    a handler is a function from a state to a completion, a new state and
    the list of calls and log lines it emitted, in order. *)

From Stdlib Require Import ZArith String Ascii List Bool Lia DecimalString.
From Stdlib Require Floats.
Import ListNotations.
Local Open Scope string_scope.
Local Open Scope list_scope.

Infix "+++" := String.append (at level 60, right associativity).

#[local] Set Warnings "-register-all".

(* ===================================================================== *)
(** ** JavaScript values *)
(* ===================================================================== *)

Module JS.

(** The values [JSON.parse] can produce, and [undefined].  A number is held
    as its canonical rendering (what [String(n)] gives; [JSON.parse] never
    yields [NaN] or an infinity, and both zeros render as ["0"]).  Arrays
    and objects carry the reference that [===] compares. *)
Inductive jsval : Type :=
| VUndefined
| VNull
| VBool (b : bool)
| VNum (repr : string)
| VStr (s : string)
| VArr (ref : nat) (items : list jsval)
| VObj (ref : nat) (props : list (string * jsval)).

(** What a [throw] carries: the [name] and the [message] of an [Error].
    Every collaborator of the model that fails, fails with such an object.
    A rejection with a value that has no [message] to read ([null],
    [undefined]), on which the [catch] blocks of the lead-submission
    handler (lines 32 and 57 to 59) would themselves throw, is outside the
    model. *)
Record error : Type := Error_ { name : string; message : string }.

Definition TypeError (msg : string) : error := Error_ "TypeError" msg.
Definition Error (msg : string) : error := Error_ "Error" msg.

(** [!!v] *)
Definition truthy (v : jsval) : bool :=
  match v with
  | VUndefined | VNull => false
  | VBool b => b
  | VNum repr => negb (repr =? "0")
  | VStr s => negb (s =? "")
  | VArr _ _ | VObj _ _ => true
  end.

(** [a === b] *)
Definition strict_eq (a b : jsval) : bool :=
  match a, b with
  | VUndefined, VUndefined => true
  | VNull, VNull => true
  | VBool x, VBool y => Bool.eqb x y
  | VNum x, VNum y => (x =? y)
  | VStr x, VStr y => (x =? y)
  | VArr r _, VArr r' _ => Nat.eqb r r'
  | VObj r _, VObj r' _ => Nat.eqb r r'
  | _, _ => false
  end.

Fixpoint lookup (key : string) (props : list (string * jsval)) : option jsval :=
  match props with
  | [] => None
  | (k, v) :: rest => if k =? key then Some v else lookup key rest
  end.

(** [v.key], for the keys the handlers read ([name], [email], [phone],
    [plan], [tenant]): no built-in prototype defines them, so only a plain
    object can hold one; reading a property of [null] or [undefined]
    throws. *)
Definition get (v : jsval) (key : string) : error + jsval :=
  match v with
  | VUndefined | VNull =>
      inl (TypeError ("Cannot read properties of null or undefined (reading '" +++ key +++ "')"))
  | VObj _ props =>
      match lookup key props with
      | Some x => inr x
      | None => inr VUndefined
      end
  | _ => inr VUndefined
  end.

(** [`${v}`]: [ToString].  A parsed object answers ["[object Object]"]
    unless it has an own [toString] property, which is then not callable
    and leaves nothing to convert with; an array joins its items with
    commas, [null] and [undefined] items rendering as the empty string. *)
Fixpoint toString (v : jsval) : option string :=
  match v with
  | VUndefined => Some "undefined"
  | VNull => Some "null"
  | VBool true => Some "true"
  | VBool false => Some "false"
  | VNum repr => Some repr
  | VStr s => Some s
  | VObj _ props =>
      match lookup "toString" props with
      | Some _ => None
      | None => Some "[object Object]"
      end
  | VArr _ items =>
      (fix join (l : list jsval) : option string :=
         match l with
         | [] => Some ""
         | x :: rest =>
             let item :=
               match x with
               | VUndefined | VNull => Some ""
               | _ => toString x
               end in
             match item, join rest with
             | Some s, Some t =>
                 Some (match rest with
                       | [] => s
                       | _ :: _ => s +++ "," +++ t
                       end)
             | _, _ => None
             end
         end) items
  end.

(** [String(n)] of an integer below 10^21 in magnitude. *)
Definition String_of_Z (n : Z) : string := NilZero.string_of_int (Z.to_int n).

Fixpoint repeat_char (c : ascii) (n : nat) : string :=
  match n with
  | O => EmptyString
  | S k => String c (repeat_char c k)
  end.

(** [s.padStart(targetLength, c)] with a one-character filler. *)
Definition padStart (s : string) (targetLength : nat) (c : ascii) : string :=
  repeat_char c (targetLength - String.length s) +++ s.

(** [s.replace(/\\n/g, '\n')]: every backslash followed by [n] becomes a
    line feed. *)
Fixpoint replace_backslash_n (s : string) : string :=
  match s with
  | EmptyString => EmptyString
  | String c1 rest =>
      match rest with
      | String c2 rest' =>
          if (Ascii.eqb c1 "\" && Ascii.eqb c2 "n")%bool
          then String (ascii_of_nat 10) (replace_backslash_n rest')
          else String c1 (replace_backslash_n rest)
      | EmptyString => String c1 EmptyString
      end
  end.

(** [!!x] of a string that may be missing ([process.env.X], [searchParams.get]). *)
Definition nonempty (x : option string) : bool :=
  match x with
  | Some s => negb (s =? "")
  | None => false
  end.

(** [process.env.X || fallback] *)
Definition or_else (x : option string) (fallback : string) : string :=
  match x with
  | Some s => if s =? "" then fallback else s
  | None => fallback
  end.

(** [`${process.env.X}`] *)
Definition template_of_env (x : option string) : string :=
  match x with
  | Some s => s
  | None => "undefined"
  end.

(** What [new Date()] is asked for. *)
Record Date : Type := Date_ { getDate : Z; getMonth : Z; getFullYear : Z; getTime : Z }.

End JS.
Import JS.

(* ===================================================================== *)
(** ** Data model *)
(* ===================================================================== *)

(** What a handler answers: [NextResponse.json(body, { status })] or
    [NextResponse.redirect(url)]. *)
Inductive response : Type :=
| NextResponse_json (body : list (string * string)) (status : Z)
| NextResponse_redirect (url : string).

(** The service-account credentials handed to [google.auth.GoogleAuth]. *)
Record GoogleCredentials : Type := GoogleCredentials_ {
  type : string;
  private_key : string;
  client_email : option string;
  project_id : string
}.

(** A document of the tenant's [User] collection. *)
Record TenantUser : Type := TenantUser_ {
  _id : string;
  email : jsval;
  tenantPath : jsval;
  role : jsval;
  createdAt : option Date;
  lastLoginAt : option Date
}.

(** A document in memory: [isNew] until its first [save]. *)
Record Document : Type := Document_ { isNew : bool; fields : TenantUser }.

(** The payload of the session token. *)
Record SessionClaims : Type := SessionClaims_ {
  claim_email : jsval;
  userId : string;
  claim_tenantPath : jsval;
  claim_role : jsval;
  authenticated : bool;
  externalDomain : string
}.

(** The options of [cookieStore.set]. *)
Record CookieOptions : Type := CookieOptions_ {
  httpOnly : bool;
  secure : bool;
  sameSite : string;
  maxAge : Z;
  path : string;
  domain : string
}.

(** The calls a handler makes to its collaborators and the lines it logs
    (a log line is kept by its fixed first argument). *)
Inductive event : Type :=
| console_log (label : string)
| console_error (label : string)
| call_GoogleAuth (credentials : GoogleCredentials) (scopes : list string)
| call_spreadsheets_get (spreadsheetId : option string)
| call_spreadsheets_values_append
    (spreadsheetId : option string) (range valueInputOption : string)
    (values : list (list jsval))
| call_jwt_verify (token : option string) (secret : string)
| call_connectDB (tenant : jsval)
| call_getTenantModel (db : string) (model : string)
| call_findOne (db : string) (query_email : jsval)
| call_save (db : string) (d : Document)
| call_SignJWT_sign (claims : SessionClaims) (secret : string)
| call_cookies
| call_cookieStore_set (name value : string) (options : CookieOptions).

(** How the collaborators answer.  A call that can fail answers with the
    error it throws. *)
Record World : Type := World_ {
  (** [process.env] *)
  env : string -> option string;
  (** whether [new URL(s)] accepts [s] *)
  URL_parses : string -> bool;
  (** the n-th [new Date()] *)
  clock : nat -> Date;
  (** [new google.auth.GoogleAuth(...)] *)
  GoogleAuth : GoogleCredentials -> list string -> option error;
  (** [sheets.spreadsheets.get] *)
  spreadsheets_get : option string -> option error;
  (** [sheets.spreadsheets.values.append], answering the response status *)
  spreadsheets_values_append :
    option string -> string -> string -> list (list jsval) -> error + Z;
  (** [jwt.verify(token, secret)] *)
  jwt_verify : option string -> string -> error + jsval;
  (** [new SignJWT(claims)...sign(secret)] *)
  SignJWT_sign : SessionClaims -> string -> error + string;
  (** [connectDB(tenant)], answering the tenant's database *)
  connectDB : jsval -> error + string;
  (** [getTenantModel(connection, name)] *)
  getTenantModel : string -> string -> option error;
  (** the failure, if any, of the n-th database operation *)
  db_fault : nat -> option error;
  (** the n-th identifier a [new User] receives *)
  new_ObjectId : nat -> string;
  (** the schema's default role, and the role the pre-save hook assigns *)
  role_default : jsval;
  pre_save_role : list TenantUser -> TenantUser -> jsval;
  (** [cookies()] and [cookieStore.set] *)
  cookies : option error;
  cookieStore_set : string -> string -> CookieOptions -> option error
}.

(** What a request changes: how many readings of the clock, database
    operations and identifiers were used, the users of each tenant
    database, and the cookies set. *)
Record state : Type := state_ {
  clock_reads : nat;
  db_calls : nat;
  ids_made : nat;
  users : string -> list TenantUser;
  cookie_jar : list (string * string)
}.

(* ===================================================================== *)
(** ** Control flow: [return], [throw], [try]/[catch] *)
(* ===================================================================== *)

Inductive completion (A : Type) : Type :=
| Normal (a : A)
| Return (r : response)
| Throw (e : error).
Arguments Normal {A} a.
Arguments Return {A} r.
Arguments Throw {A} e.

Definition M (A : Type) : Type := state -> completion A * state * list event.

Definition ret {A} (a : A) : M A := fun s => (Normal a, s, []).

Definition bind {A B} (m : M A) (k : A -> M B) : M B :=
  fun s =>
    match m s with
    | (Normal a, s1, l1) =>
        match k a s1 with
        | (c, s2, l2) => (c, s2, l1 ++ l2)
        end
    | (Return r, s1, l1) => (Return r, s1, l1)
    | (Throw e, s1, l1) => (Throw e, s1, l1)
    end.

Notation "x <- m ;; k" := (bind m (fun x => k))
  (at level 61, m at next level, right associativity).
Notation "' p <- m ;; k" := (bind m (fun p => k))
  (at level 61, p pattern, m at next level, right associativity).
Notation "m ;; k" := (bind m (fun _ => k))
  (at level 61, right associativity).

Definition throw {A} (e : error) : M A := fun s => (Throw e, s, []).
Definition return_ {A} (r : response) : M A := fun s => (Return r, s, []).
Definition emit (ev : event) : M unit := fun s => (Normal tt, s, [ev]).

Definition try_catch {A} (body : M A) (handler : error -> M A) : M A :=
  fun s =>
    match body s with
    | (Throw e, s1, l1) =>
        match handler e s1 with
        | (c, s2, l2) => (c, s2, l1 ++ l2)
        end
    | other => other
    end.

(** A value or the error thrown in its place. *)
Definition lift {A} (x : error + A) : M A :=
  match x with
  | inl e => throw e
  | inr a => ret a
  end.

(** A call that answers nothing: [None] is success. *)
Definition lift_unit (x : option error) : M unit :=
  match x with
  | Some e => throw e
  | None => ret tt
  end.

Definition when (b : bool) (m : M unit) : M unit := if b then m else ret tt.

(** What the caller of an [async] handler sees: the promise resolves with
    the response returned, or rejects with the error that escaped. *)
Inductive settled : Type :=
| Resolved (r : response)
| Rejected (e : error).

Definition settle (c : completion response) : settled :=
  match c with
  | Normal r => Resolved r
  | Return r => Resolved r
  | Throw e => Rejected e
  end.

Definition call (body : M response) (s : state) : settled * state * list event :=
  match body s with
  | (c, s1, l) => (settle c, s1, l)
  end.

(* ===================================================================== *)
(** ** Platform calls *)
(* ===================================================================== *)

(** [new URL(s)]: the address, or a [TypeError]. *)
Definition new_URL (w : World) (s : string) : M string :=
  if URL_parses w s then ret s else throw (TypeError "Invalid URL").

(** [return NextResponse.redirect(new URL(s))] *)
Definition return_redirect {A} (w : World) (s : string) : M A :=
  url <- new_URL w s ;;
  return_ (NextResponse_redirect url).

Definition count_clock_read (s : state) : state :=
  state_ (S (clock_reads s)) (db_calls s) (ids_made s) (users s) (cookie_jar s).

(** [new Date()] *)
Definition new_Date (w : World) : M Date :=
  fun s => (Normal (clock w (clock_reads s)), count_clock_read s, []).

(** [`${v}`] *)
Definition template (v : jsval) : M string :=
  match toString v with
  | Some s => ret s
  | None => throw (TypeError "Cannot convert object to primitive value")
  end.

(* ===================================================================== *)
(** ** The lead-submission handler *)
(* ===================================================================== *)

Module Lead.

(** A request, by what [await request.json()] gives: the parsed body, or
    the error of a body that does not parse. *)
Record Request : Type := Request_ { json : error + jsval }.

Definition new_GoogleAuth (w : World) (c : GoogleCredentials) (scopes : list string)
  : M unit :=
  emit (call_GoogleAuth c scopes) ;;
  lift_unit (GoogleAuth w c scopes).

Definition sheets_spreadsheets_get (w : World) (spreadsheetId : option string)
  : M unit :=
  emit (call_spreadsheets_get spreadsheetId) ;;
  lift_unit (spreadsheets_get w spreadsheetId).

Definition sheets_spreadsheets_values_append (w : World)
  (spreadsheetId : option string) (range valueInputOption : string)
  (values : list (list jsval)) : M Z :=
  emit (call_spreadsheets_values_append spreadsheetId range valueInputOption values) ;;
  lift (spreadsheets_values_append w spreadsheetId range valueInputOption values).

(** Line 41: day and month padded to two characters, the year as it is. *)
Definition formattedDate (currentDate : Date) : string :=
  padStart (String_of_Z (getDate currentDate)) 2 "0" +++ "/" +++
  padStart (String_of_Z (getMonth currentDate + 1)) 2 "0" +++ "/" +++
  String_of_Z (getFullYear currentDate).

(** [private_key.replace(...)] on [process.env.GOOGLE_SHEETS_PRIVATE_KEY] *)
Definition unescaped_private_key (w : World) : M string :=
  match env w "GOOGLE_SHEETS_PRIVATE_KEY" with
  | Some k => ret (replace_backslash_n k)
  | None => throw (TypeError "Cannot read properties of undefined (reading 'replace')")
  end.

(** [const { name, email, phone, plan } = body] *)
Definition destructure (body : jsval) : error + (jsval * jsval * jsval * jsval) :=
  match get body "name", get body "email", get body "phone", get body "plan" with
  | inr name, inr email, inr phone, inr plan => inr (name, email, phone, plan)
  | inl e, _, _, _ => inl e
  | _, inl e, _, _ => inl e
  | _, _, inl e, _ => inl e
  | _, _, _, inl e => inl e
  end.

Definition POST (w : World) (request : Request) : M response :=
  try_catch
    (body <- lift (json request) ;;
     '(name, email, phone, plan) <- lift (destructure body) ;;
     when (negb (nonempty (env w "GOOGLE_SHEETS_ID")) ||
           negb (nonempty (env w "GOOGLE_SHEETS_CLIENT_EMAIL")) ||
           negb (nonempty (env w "GOOGLE_SHEETS_PRIVATE_KEY")))
       (throw (Error "Missing required environment variables")) ;;
     key <- unescaped_private_key w ;;
     new_GoogleAuth w
       (GoogleCredentials_ "service_account" key
          (env w "GOOGLE_SHEETS_CLIENT_EMAIL") "flowing-indexer-441615-m0")
       ["https://www.googleapis.com/auth/spreadsheets"] ;;
     try_catch
       (sheets_spreadsheets_get w (env w "GOOGLE_SHEETS_ID"))
       (fun error =>
          emit (console_error "Failed to access spreadsheet:") ;;
          return_ (NextResponse_json
            [("message",
              "Failed to access spreadsheet. Please verify permissions and spreadsheet ID.")]
            403)) ;;
     currentDate <- new_Date w ;;
     appendResponse <- sheets_spreadsheets_values_append w
       (env w "GOOGLE_SHEETS_ID") "A:E" "USER_ENTERED"
       [[name; email; phone; plan; VStr (formattedDate currentDate)]] ;;
     emit (console_log "Append response:") ;;
     return_ (NextResponse_json [("message", "Success")] 200))
    (fun error =>
       emit (console_error "Detailed error:") ;;
       return_ (NextResponse_json
         [("message", "Internal server error");
          ("error", message error);
          ("type", JS.name error)]
         500)).

(** The calls that leave the process: the spreadsheet client and its
    requests. *)
Definition is_external_call (ev : event) : bool :=
  match ev with
  | call_GoogleAuth _ _
  | call_spreadsheets_get _
  | call_spreadsheets_values_append _ _ _ _ => true
  | _ => false
  end.

Definition appended_rows (ev : event) : list (list jsval) :=
  match ev with
  | call_spreadsheets_values_append _ _ _ values => values
  | _ => []
  end.

End Lead.

(* ===================================================================== *)
(** ** The tenant's user store *)
(* ===================================================================== *)

Module Store.

Definition count_db_call (s : state) : state :=
  state_ (clock_reads s) (S (db_calls s)) (ids_made s) (users s) (cookie_jar s).

Definition count_id (s : state) : state :=
  state_ (clock_reads s) (db_calls s) (S (ids_made s)) (users s) (cookie_jar s).

Definition with_users (s : state) (db : string) (l : list TenantUser) : state :=
  state_ (clock_reads s) (db_calls s) (ids_made s)
    (fun d => if d =? db then l else users s d) (cookie_jar s).

Definition with_cookie (s : state) (name value : string) : state :=
  state_ (clock_reads s) (db_calls s) (ids_made s) (users s)
    ((name, value) :: cookie_jar s).

Definition set_tenantPath (u : TenantUser) (v : jsval) : TenantUser :=
  TenantUser_ (_id u) (email u) v (role u) (createdAt u) (lastLoginAt u).

Definition set_role (u : TenantUser) (v : jsval) : TenantUser :=
  TenantUser_ (_id u) (email u) (tenantPath u) v (createdAt u) (lastLoginAt u).

Definition set_lastLoginAt (u : TenantUser) (d : Date) : TenantUser :=
  TenantUser_ (_id u) (email u) (tenantPath u) (role u) (createdAt u) (Some d).

(** One round trip to the database: recorded, counted, and failing when
    the world says so. *)
Definition db_operation (w : World) (ev : event) : M unit :=
  fun s =>
    match db_fault w (db_calls s) with
    | Some e => (Throw e, count_db_call s, [ev])
    | None => (Normal tt, count_db_call s, [ev])
    end.

Definition has_email (q : jsval) (u : TenantUser) : bool := strict_eq (email u) q.

Definition has_id (id : string) (l : list TenantUser) : bool :=
  existsb (fun x => _id x =? id) l.

Fixpoint replace_by_id (u : TenantUser) (l : list TenantUser) : list TenantUser :=
  match l with
  | [] => []
  | x :: rest =>
      if _id x =? _id u then u :: rest else x :: replace_by_id u rest
  end.

(** Modelled from the spec: [User.findOne({ email })] of the model that
    [getTenantModel] of [@/lib/mongodb] gives, which is not among the
    sources ("looked up by email within a tenant-scoped store"): the first
    stored user with that e-mail, or [null]. *)
Definition User_findOne (w : World) (db : string) (q : jsval)
  : M (option Document) :=
  db_operation w (call_findOne db q) ;;
  fun s =>
    (Normal (option_map (Document_ false) (find (has_email q) (users s db))), s, []).

(** What a [save] that goes through leaves: the document as stored, and
    the collection with it. *)
Definition persisted (w : World) (db : string) (d : Document) (s : state)
  (u : TenantUser) (s' : state) : Prop :=
  u = set_role (fields d) (pre_save_role w (users s db) (fields d)) /\
  ((isNew d = true /\ has_id (_id u) (users s db) = false /\
    s' = with_users s db (users s db ++ [u])) \/
   (isNew d = false /\ has_id (_id u) (users s db) = true /\
    s' = with_users s db (replace_by_id u (users s db)))).

(** Modelled from the spec: [new User({...})] of the same absent model:
    a document not yet stored, with a new identifier and the schema's
    default role. *)
Definition new_User (w : World) (email tenantPath : jsval)
  (createdAt lastLoginAt : Date) : M Document :=
  fun s =>
    (Normal (Document_ true
       (TenantUser_ (new_ObjectId w (ids_made s)) email tenantPath (role_default w)
          (Some createdAt) (Some lastLoginAt))),
     count_id s, []).

(** Modelled from the spec: [user.save()] of the same absent model ("create
    a new user record with default role-assignment delegated to the storage
    layer's creation hook"; "persist"): the hook sets the role, a new
    document is inserted (identifiers are unique in a collection), a stored
    one is replaced under its identifier. *)
Definition save (w : World) (db : string) (d : Document) : M Document :=
  db_operation w (call_save db d) ;;
  fun s =>
    let stored := users s db in
    let u := set_role (fields d) (pre_save_role w stored (fields d)) in
    if isNew d then
      if has_id (_id u) stored
      then (Throw (Error_ "MongoServerError" "E11000 duplicate key error"), s, [])
      else (Normal (Document_ false u), with_users s db (stored ++ [u]), [])
    else
      if has_id (_id u) stored
      then (Normal (Document_ false u), with_users s db (replace_by_id u stored), [])
      else (Throw (Error_ "DocumentNotFoundError" "No document found"), s, []).

End Store.

(* ===================================================================== *)
(** ** The verification handler *)
(* ===================================================================== *)

Module Verify.
Import Store.

(** A request, by what [searchParams.get] gives for [token] and [tenant]:
    a string, or [null].  ([request.url] is an absolute address, as every
    [Request] has one, so that [new URL(request.url)] does not throw.) *)
Record Request : Type := Request_ {
  token_param : option string;
  tenant_param : option string
}.

Definition of_param (x : option string) : jsval :=
  match x with
  | Some s => VStr s
  | None => VNull
  end.

(** Lines 77 to 79 *)
Definition EMAIL_SECRET (w : World) : string :=
  or_else (env w "EMAIL_SECRET") "your-secret-key".
Definition JWT_SECRET (w : World) : string :=
  or_else (env w "JWT_SECRET") "your-jwt-secret".
Definition EXTERNAL_APP_URL : string := "https://app.liveplus.pro".

(** [`${baseUrl}/?error=...`], with [baseUrl] read from the environment *)
Definition error_page (w : World) (code : string) : string :=
  template_of_env (env w "NEXT_PUBLIC_APP_URL") +++ "/?error=" +++ code.

Definition tenant_page (tenantUrl code : string) : string :=
  tenantUrl +++ "/?error=" +++ code.

Definition jwt_verify_ (w : World) (token : option string) (secret : string)
  : M jsval :=
  emit (call_jwt_verify token secret) ;;
  lift (jwt_verify w token secret).

Definition connectDB_ (w : World) (tenant : jsval) : M string :=
  emit (call_connectDB tenant) ;;
  lift (connectDB w tenant).

Definition getTenantModel_ (w : World) (connection model : string) : M unit :=
  emit (call_getTenantModel connection model) ;;
  lift_unit (getTenantModel w connection model).

Definition SignJWT_sign_ (w : World) (claims : SessionClaims) (secret : string)
  : M string :=
  emit (call_SignJWT_sign claims secret) ;;
  lift (SignJWT_sign w claims secret).

Definition cookies_ (w : World) : M unit :=
  emit call_cookies ;;
  lift_unit (cookies w).

Definition cookieStore_set_ (w : World) (name value : string)
  (options : CookieOptions) : M unit :=
  emit (call_cookieStore_set name value options) ;;
  lift_unit (cookieStore_set w name value options) ;;
  fun s => (Normal tt, with_cookie s name value, []).

(** [token.substring(0, 10)] *)
Definition token_prefix (token : option string) : M string :=
  match token with
  | Some t => ret (substring 0 10 t)
  | None => throw (TypeError "Cannot read properties of null (reading 'substring')")
  end.

(** Lines 105 to 109: the tenant of the address, or the token's when the
    address has none. *)
Definition resolve_tenant (tenant decoded : jsval) : M jsval :=
  if negb (truthy tenant) then
    token_tenant <- lift (get decoded "tenant") ;;
    if truthy token_tenant then
      emit (console_log "Retrieved tenant from token:") ;;
      ret token_tenant
    else ret tenant
  else ret tenant.

(** Lines 137 to 165: find or create the user, then refresh the last
    login. *)
Definition find_or_create_user (w : World) (db : string) (decoded tenant : jsval)
  (tenantUrl : string) : M Document :=
  try_catch
    (query_email <- lift (get decoded "email") ;;
     found <- User_findOne w db query_email ;;
     user <-
       match found with
       | Some user =>
           if negb (truthy (tenantPath (fields user))) then
             save w db (Document_ (isNew user) (set_tenantPath (fields user) tenant))
           else ret user
       | None =>
           new_email <- lift (get decoded "email") ;;
           created <- new_Date w ;;
           logged <- new_Date w ;;
           user <- new_User w new_email tenant created logged ;;
           save w db user
       end ;;
     now <- new_Date w ;;
     save w db (Document_ (isNew user) (set_lastLoginAt (fields user) now)))
    (fun error =>
       emit (console_error "User operations failed:") ;;
       return_redirect w (tenant_page tenantUrl "user-error")).

(** Lines 176 to 209: sign the session token, set the cookie, redirect. *)
Definition create_session (w : World) (decoded : jsval) (user : Document)
  (tenantUrl : string) : M response :=
  try_catch
    (claim <- lift (get decoded "email") ;;
     sessionToken <- SignJWT_sign_ w
       (SessionClaims_ claim (_id (fields user)) (tenantPath (fields user))
          (role (fields user)) true EXTERNAL_APP_URL)
       (JWT_SECRET w) ;;
     cookies_ w ;;
     cookieStore_set_ w "auth_token" sessionToken
       (CookieOptions_ true true "none" (7 * 24 * 60 * 60) "/" ".liveplus.pro") ;;
     emit (console_log "Redirecting to:") ;;
     return_redirect w tenantUrl)
    (fun error =>
       emit (console_error "Session creation failed:") ;;
       return_redirect w (tenant_page tenantUrl "session-error")).

Definition GET (w : World) (request : Request) : M response :=
  try_catch
    (let token := token_param request in
     when (negb (nonempty token))
       (emit (console_error "No token provided") ;;
        return_redirect w (error_page w "invalid-token")) ;;
     decoded <-
       try_catch
         (jwt_verify_ w token (EMAIL_SECRET w))
         (fun error =>
            emit (console_error "Token verification failed:") ;;
            return_redirect w (error_page w "invalid-token")) ;;
     tenant <- resolve_tenant (of_param (tenant_param request)) decoded ;;
     when (negb (truthy tenant))
       (emit (console_error "No tenant provided") ;;
        return_redirect w (error_page w "invalid-tenant")) ;;
     token_tenant <- lift (get decoded "tenant") ;;
     when (negb (strict_eq tenant token_tenant))
       (emit (console_error "Tenant mismatch:") ;;
        return_redirect w (error_page w "invalid-tenant")) ;;
     segment <- template tenant ;;
     let tenantUrl := EXTERNAL_APP_URL +++ "/" +++ segment +++ "/financeiro" in
     tenantConnection <-
       try_catch
         (connectDB_ w tenant)
         (fun error =>
            emit (console_error "Database connection failed:") ;;
            return_redirect w (tenant_page tenantUrl "database-error")) ;;
     getTenantModel_ w tenantConnection "User" ;;
     user <- find_or_create_user w tenantConnection decoded tenant tenantUrl ;;
     token_prefix token ;;
     emit (console_log "User login:") ;;
     create_session w decoded user tenantUrl)
    (fun error =>
       emit (console_error "Verification error:") ;;
       return_redirect w (error_page w "server-error")).

(** The calls that reach the database. *)
Definition is_db_call (ev : event) : bool :=
  match ev with
  | call_connectDB _
  | call_getTenantModel _ _
  | call_findOne _ _
  | call_save _ _ => true
  | _ => false
  end.

(** The calls that read, create or modify a user record. *)
Definition is_user_call (ev : event) : bool :=
  match ev with
  | call_findOne _ _
  | call_save _ _ => true
  | _ => false
  end.

(** The calls that issue the session: signing its token, setting its
    cookie. *)
Definition is_session_call (ev : event) : bool :=
  match ev with
  | call_SignJWT_sign _ _
  | call_cookieStore_set _ _ _ => true
  | _ => false
  end.

End Verify.

(* ===================================================================== *)
(** ** Observing a run *)
(* ===================================================================== *)

Definition answer (run : settled * state * list event) : settled := fst (fst run).
Definition final_state (run : settled * state * list event) : state := snd (fst run).
Definition events (run : settled * state * list event) : list event := snd run.

Definition is_console_error (ev : event) : bool :=
  match ev with
  | console_error _ => true
  | _ => false
  end.

(** [none p l]: no event of [l] satisfies [p]. *)
Definition none (p : event -> bool) (l : list event) : bool :=
  forallb (fun ev => negb (p ev)) l.

(** [only_after first guarded l]: no [guarded] event of [l] comes before
    the first [first] event. *)
Fixpoint only_after (first guarded : event -> bool) (l : list event) : bool :=
  match l with
  | [] => true
  | ev :: rest =>
      negb (guarded ev) &&
      (if first ev then true else only_after first guarded rest)
  end.

(* ===================================================================== *)
(** ** The date format the specification asks for *)
(* ===================================================================== *)

Module Format.

Definition digit (n : Z) : ascii := ascii_of_nat (48 + Z.to_nat n).

(** The last [k] decimal digits of [n], most significant first. *)
Fixpoint digits (k : nat) (n : Z) : string :=
  match k with
  | O => EmptyString
  | S k' => digits k' (n / 10) +++ String (digit (n mod 10)) EmptyString
  end.

(** Following the spec's words: "DD/MM/YYYY (day and month zero-padded to
    two digits)", of a date whose month is counted from zero. *)
Definition DD_MM_YYYY (d : Date) : string :=
  digits 2 (getDate d) +++ "/" +++ digits 2 (getMonth d + 1) +++ "/" +++
  digits 4 (getFullYear d).

(** What [new Date()] can answer for a current date. *)
Definition calendar (d : Date) : Prop :=
  (1 <= getDate d <= 31)%Z /\ (0 <= getMonth d <= 11)%Z /\
  (1000 <= getFullYear d <= 9999)%Z.

End Format.

(* ===================================================================== *)
(** ** The verification handler: what its properties speak of *)
(* ===================================================================== *)

Module Checks.
Import Verify.

(** The tenant lines 105 to 109 leave in [tenant], given the tenant of the
    address and the one of the token. *)
Definition adopted (tenant token_tenant : jsval) : jsval :=
  if negb (truthy tenant) && truthy token_tenant then token_tenant else tenant.

(** The checks of lines 90 to 121: a token is there, it verifies, and the
    tenant the handler settles on is the one of the token. *)
Definition checks_passed (w : World) (request : Request) : Prop :=
  nonempty (token_param request) = true /\
  exists decoded token_tenant,
    jwt_verify w (token_param request) (EMAIL_SECRET w) = inr decoded /\
    get decoded "tenant" = inr token_tenant /\
    strict_eq (adopted (of_param (tenant_param request)) token_tenant) token_tenant
      = true.

Definition is_jwt_verify (ev : event) : bool :=
  match ev with
  | call_jwt_verify _ _ => true
  | _ => false
  end.

(** The calls that issue a session or touch a user record. *)
Definition is_guarded (ev : event) : bool :=
  is_session_call ev || is_user_call ev.

(** A verification succeeds when the handler answers a redirect without
    having logged an error: every failure exit logs one first. *)
Definition succeeded (run : settled * state * list event) : Prop :=
  (exists url, answer run = Resolved (NextResponse_redirect url)) /\
  none is_console_error (events run) = true.

(** Which secret and which domain a call was made with. *)
Definition configured_by (w : World) (ev : event) : Prop :=
  match ev with
  | call_jwt_verify _ secret => secret = or_else (env w "EMAIL_SECRET") "your-secret-key"
  | call_SignJWT_sign claims secret =>
      secret = or_else (env w "JWT_SECRET") "your-jwt-secret" /\
      externalDomain claims = "https://app.liveplus.pro"
  | call_cookieStore_set _ _ options => domain options = ".liveplus.pro"
  | _ => True
  end.

End Checks.

(* ===================================================================== *)
(** ** Reasoning about a run, one statement at a time *)
(* ===================================================================== *)

(** [wp m Q s]: running [m] from [s] ends in a completion, a state and a
    list of events that satisfy [Q]. *)
Definition wp {A} (m : M A) (Q : completion A -> state -> list event -> Prop)
  (s : state) : Prop :=
  match m s with
  | (c, s', l) => Q c s' l
  end.


(* ===================================================================== *)
(** ** Sample worlds and requests *)
(* ===================================================================== *)

Module Sample.
Import Store Verify.

Definition is_letter (c : ascii) : bool :=
  let n := nat_of_ascii c in
  ((65 <=? n) && (n <=? 90) || (97 <=? n) && (n <=? 122))%nat.

Definition is_scheme_char (c : ascii) : bool :=
  let n := nat_of_ascii c in
  is_letter c || ((48 <=? n) && (n <=? 57))%nat ||
  Ascii.eqb c "+" || Ascii.eqb c "-" || Ascii.eqb c ".".

Fixpoint scheme_ends (s : string) : bool :=
  match s with
  | EmptyString => false
  | String c rest =>
      if Ascii.eqb c ":" then true else is_scheme_char c && scheme_ends rest
  end.

(** A URL constructor that accepts the addresses that start with a scheme
    (a letter, then letters, digits, [+], [-] or [.], up to a colon): with
    no base to resolve against, the platform's constructor rejects every
    other one. *)
Definition has_scheme (s : string) : bool :=
  match s with
  | EmptyString => false
  | String c rest => is_letter c && scheme_ends rest
  end.

(** 3 November 2026, a millisecond later at each reading of the clock *)
Definition today_at (n : nat) : Date :=
  Date_ 3 10 2026 (1793664000000 + Z.of_nat n).

(** 1 October 2026 *)
Definition earlier : Date := Date_ 1 9 2026 1790812800000.

(** What the mailer signed for [a@x.com] of tenant [acme]. *)
Definition payload : jsval :=
  VObj 1 [("email", VStr "a@x.com"); ("tenant", VStr "acme")].

(** A token whose tenant claim is the empty string. *)
Definition payload_empty_tenant : jsval :=
  VObj 2 [("email", VStr "a@x.com"); ("tenant", VStr "")].

Definition configured (key : string) : option string :=
  if key =? "NEXT_PUBLIC_APP_URL" then Some "https://liveplus.pro"
  else if key =? "EMAIL_SECRET" then Some "email-secret"
  else if key =? "JWT_SECRET" then Some "session-secret"
  else if key =? "GOOGLE_SHEETS_ID" then Some "sheet-1"
  else if key =? "GOOGLE_SHEETS_CLIENT_EMAIL" then Some "leads@project.iam"
  else if key =? "GOOGLE_SHEETS_PRIVATE_KEY" then Some "-----BEGIN-----\nkey\n-----END-----"
  else None.

Definition unconfigured (key : string) : option string := None.

(** A world where every collaborator answers: the token ["good"] verifies
    under [issuer_secret] and decodes to [decoded], every other token is
    rejected; the first user of a tenant becomes its owner. *)
Definition world_of (environment : string -> option string)
  (issuer_secret : string) (decoded : jsval) : World :=
  World_
    environment
    has_scheme
    today_at
    (fun _ _ => None)
    (fun _ => None)
    (fun _ _ _ _ => inr 200%Z)
    (fun token secret =>
       match token with
       | Some t =>
           if (t =? "good") && (secret =? issuer_secret) then inr decoded
           else inl (Error_ "JsonWebTokenError" "invalid signature")
       | None => inl (Error_ "JsonWebTokenError" "jwt must be provided")
       end)
    (fun _ _ => inr "session.jwt")
    (fun tenant =>
       match toString tenant with
       | Some t => inr ("tenant_" +++ t)
       | None => inl (Error "unknown tenant")
       end)
    (fun _ _ => None)
    (fun _ => None)
    (fun n => "id-" +++ String_of_Z (Z.of_nat n))
    (VStr "member")
    (fun stored u =>
       match stored with
       | [] => VStr "owner"
       | _ :: _ => role u
       end)
    None
    (fun _ _ _ => None).

Definition world : World := world_of configured "email-secret" payload.

(** Nothing is configured; the mailer signs with the handler's literal. *)
Definition world_without_env : World :=
  world_of unconfigured "your-secret-key" payload.

Definition world_empty_tenant : World :=
  world_of configured "email-secret" payload_empty_tenant.

(** Nothing is configured, and the tenant's connection has no [User]
    model to give: [getTenantModel] throws. *)
Definition world_without_model : World :=
  let w := world_without_env in
  World_ (env w) (URL_parses w) (clock w) (GoogleAuth w) (spreadsheets_get w)
    (spreadsheets_values_append w) (jwt_verify w) (SignJWT_sign w) (connectDB w)
    (fun _ _ => Some (Error "Schema hasn't been registered for model User"))
    (db_fault w) (new_ObjectId w) (role_default w) (pre_save_role w)
    (cookies w) (cookieStore_set w).

Definition start : state := state_ 0 0 0 (fun _ => []) [].

(** The tenant [acme] already has the user. *)
Definition returning : state :=
  state_ 0 0 1
    (fun db =>
       if db =? "tenant_acme"
       then [TenantUser_ "id-0" (VStr "a@x.com") (VStr "acme") (VStr "owner")
               (Some earlier) (Some earlier)]
       else [])
    [].

Definition good_request : Request := Request_ (Some "good") (Some "acme").
Definition other_tenant : Request := Request_ (Some "good") (Some "other").
Definition token_missing : Request := Request_ None (Some "acme").

Definition lead : Lead.Request :=
  Lead.Request_
    (inr (VObj 3 [("name", VStr "Ana"); ("email", VStr "ana@x.com");
                  ("phone", VStr "+55 11 99999-0000"); ("plan", VStr "pro")])).

(** A body with a number for a name, an empty e-mail, and no phone or
    plan. *)
Definition odd_lead : Lead.Request :=
  Lead.Request_ (inr (VObj 4 [("name", VNum "7"); ("email", VStr "")])).

End Sample.

(* ===================================================================== *)
(** ** The lead-submission handler: what its properties speak of *)
(* ===================================================================== *)

Module LeadChecks.
Import Lead.

Definition is_append (ev : event) : bool :=
  match ev with
  | call_spreadsheets_values_append _ _ _ _ => true
  | _ => false
  end.

Definition is_sheet_read (ev : event) : bool :=
  match ev with
  | call_spreadsheets_get _ => true
  | _ => false
  end.

(** What the handler hands to the spreadsheet service, call by call: the
    credentials of lines 16 to 22, the sheet of lines 29 and 44, the range,
    the input option and the one row of five cells of lines 45 to 49. *)
Definition sheet_call_ok (w : World) (ev : event) : Prop :=
  match ev with
  | call_GoogleAuth c scopes =>
      type c = "service_account" /\
      (exists k, env w "GOOGLE_SHEETS_PRIVATE_KEY" = Some k /\
                 private_key c = replace_backslash_n k) /\
      client_email c = env w "GOOGLE_SHEETS_CLIENT_EMAIL" /\
      scopes = ["https://www.googleapis.com/auth/spreadsheets"]
  | call_spreadsheets_get id => id = env w "GOOGLE_SHEETS_ID"
  | call_spreadsheets_values_append id range option values =>
      id = env w "GOOGLE_SHEETS_ID" /\ range = "A:E" /\ option = "USER_ENTERED" /\
      exists row, values = [row] /\ length row = 5%nat
  | _ => True
  end.

(** The three variables of lines 9 to 11 are set and not empty. *)
Definition sheet_configured (w : World) : Prop :=
  nonempty (env w "GOOGLE_SHEETS_ID") = true /\
  nonempty (env w "GOOGLE_SHEETS_CLIENT_EMAIL") = true /\
  nonempty (env w "GOOGLE_SHEETS_PRIVATE_KEY") = true.

(** Following the claim's words, "whatever values were supplied (including
    undefined)": the value a body holds under a key, [undefined] when it
    holds none, an object or not. *)
Definition supplied (body : jsval) (key : string) : jsval :=
  match body with
  | VObj _ props =>
      match lookup key props with
      | Some v => v
      | None => VUndefined
      end
  | _ => VUndefined
  end.

End LeadChecks.

Module Escapes.

(** Whether a backslash followed by [n] occurs in [s]: what the pattern of
    line 18 matches. *)
Fixpoint has_escaped_line_feed (s : string) : bool :=
  match s with
  | EmptyString => false
  | String c1 rest =>
      match rest with
      | String c2 _ =>
          (Ascii.eqb c1 "\" && Ascii.eqb c2 "n") || has_escaped_line_feed rest
      | EmptyString => false
      end
  end.

End Escapes.

(* ===================================================================== *)
(** ** The verification handler: its calls, its exits, its cookie *)
(* ===================================================================== *)

Module Protocol.
Import Verify Checks.

(** The address of line 124, for the tenant rendered as [segment]. *)
Definition tenantUrl (segment : string) : string :=
  EXTERNAL_APP_URL +++ "/" +++ segment +++ "/financeiro".

(** The collaborators of the verification handler. *)
Inductive collaborator : Type :=
| JwtVerify | ConnectDB | GetTenantModel | FindOne | Save
| SignJWT | Cookies | CookieSet.

(** The collaborator a call goes to; a log line goes to none. *)
Definition callee (ev : event) : option collaborator :=
  match ev with
  | call_jwt_verify _ _ => Some JwtVerify
  | call_connectDB _ => Some ConnectDB
  | call_getTenantModel _ _ => Some GetTenantModel
  | call_findOne _ _ => Some FindOne
  | call_save _ _ => Some Save
  | call_SignJWT_sign _ _ => Some SignJWT
  | call_cookies => Some Cookies
  | call_cookieStore_set _ _ _ => Some CookieSet
  | _ => None
  end.

Definition callees (l : list event) : list collaborator :=
  flat_map (fun ev => match callee ev with Some c => [c] | None => [] end) l.

Definition is_call (ev : event) : bool :=
  match callee ev with
  | Some _ => true
  | None => false
  end.

(** The calls of lines 99 to 193 in the order of the text, with one or
    two saves. *)
Definition script (saves : nat) : list collaborator :=
  [JwtVerify; ConnectDB; GetTenantModel; FindOne] ++ repeat Save saves ++
  [SignJWT; Cookies; CookieSet].

Definition collaborator_eqb (a b : collaborator) : bool :=
  match a, b with
  | JwtVerify, JwtVerify | ConnectDB, ConnectDB | GetTenantModel, GetTenantModel
  | FindOne, FindOne | Save, Save | SignJWT, SignJWT | Cookies, Cookies
  | CookieSet, CookieSet => true
  | _, _ => false
  end.

(** [begins_with l long]: [l] is an initial part of [long]. *)
Fixpoint begins_with (l long : list collaborator) : bool :=
  match l, long with
  | [], _ => true
  | c :: l', d :: long' => collaborator_eqb c d && begins_with l' long'
  | _ :: _, [] => false
  end.

(** No call follows the first error logged. *)
Fixpoint stops_at_error (l : list event) : bool :=
  match l with
  | [] => true
  | ev :: rest =>
      if is_console_error ev then none is_call rest else stops_at_error rest
  end.

(** The calls of a trace are an initial part of the script, and none
    follows an error. *)
Definition disciplined (l : list event) : bool :=
  (begins_with (callees l) (script 1) || begins_with (callees l) (script 2)) &&
  stops_at_error l.

(** [console.error(label, ...)] is among the lines logged. *)
Definition logged (label : string) (l : list event) : bool :=
  existsb (fun ev => match ev with
                     | console_error t => t =? label
                     | _ => false
                     end) l.

(** The tenant of the address the handler redirects under: the tenant it
    settled on, as line 124 renders it. *)
Definition segment_of (w : World) (request : Request) : string :=
  match jwt_verify w (token_param request) (EMAIL_SECRET w) with
  | inr decoded =>
      match get decoded "tenant" with
      | inr token_tenant =>
          match toString (adopted (of_param (tenant_param request)) token_tenant) with
          | Some segment => segment
          | None => ""
          end
      | inl _ => ""
      end
  | inl _ => ""
  end.

(** The address each exit of the handler redirects to, by the error it
    logged (lines 93, 102, 114, 120, 132, 164, 205, 208 and 213). *)
Definition page_for (w : World) (segment : string) (l : list event) : string :=
  if logged "Verification error:" l then error_page w "server-error"
  else if logged "No token provided" l || logged "Token verification failed:" l
  then error_page w "invalid-token"
  else if logged "No tenant provided" l || logged "Tenant mismatch:" l
  then error_page w "invalid-tenant"
  else if logged "Database connection failed:" l
  then tenant_page (tenantUrl segment) "database-error"
  else if logged "User operations failed:" l
  then tenant_page (tenantUrl segment) "user-error"
  else if logged "Session creation failed:" l
  then tenant_page (tenantUrl segment) "session-error"
  else tenantUrl segment.

End Protocol.

Module Session.
Import Verify.

(** The options of lines 193 to 200; [maxAge] is seven days in seconds. *)
Definition auth_cookie : CookieOptions :=
  CookieOptions_ true true "none" 604800 "/" ".liveplus.pro".

(** The cookie of the run was set from the token that [sign] answered for
    [claims], under the name and with the options of lines 193 to 200. *)
Definition cookie_set_from (w : World) (s : state)
  (run : settled * state * list event) : Prop :=
  exists claims token,
    In (call_SignJWT_sign claims (JWT_SECRET w)) (events run) /\
    SignJWT_sign w claims (JWT_SECRET w) = inr token /\
    In (call_cookieStore_set "auth_token" token auth_cookie) (events run) /\
    cookie_jar (final_state run) = ("auth_token", token) :: cookie_jar s.

End Session.

Module Tenancy.
Import Verify Checks.

(** [db] is the database [connectDB] answers for the tenant the handler
    settled on, that tenant being the one of the verified token. *)
Definition tenant_database (w : World) (request : Request) (db : string) : Prop :=
  exists decoded token_tenant,
    jwt_verify w (token_param request) (EMAIL_SECRET w) = inr decoded /\
    get decoded "tenant" = inr token_tenant /\
    strict_eq (adopted (of_param (tenant_param request)) token_tenant) token_tenant
      = true /\
    connectDB w (adopted (of_param (tenant_param request)) token_tenant) = inr db.

(** The database a call is made on. *)
Definition database_of (ev : event) : option string :=
  match ev with
  | call_getTenantModel db _ => Some db
  | call_findOne db _ => Some db
  | call_save db _ => Some db
  | _ => None
  end.

End Tenancy.

(* ===================================================================== *)
(** ** The landing page: the rotation of the video on scroll *)
(* ===================================================================== *)

(** [src/components/Hero.js], lines 10 and 14 to 25.  A JavaScript number is
    a binary64 float. *)
Module Hero.
Import Floats.
Local Open Scope float_scope.

(** [Math.max(a, b)] of two numbers: [NaN] if either is; of the two zeros
    the positive one is the larger. *)
Definition Math_max (a b : float) : float :=
  if is_nan a || is_nan b then nan
  else if a <? b then b
  else if b <? a then a
  else match classify a with
       | NZero => b
       | _ => a
       end.

(** What the handler reads of [window]. *)
Record Window : Type := Window_ { scrollY : float; innerHeight : float }.

(** Line 10: [useState(25)] *)
Definition initial_rotation : float := 25.

(** Lines 15 to 21: the rotation [handleScroll] hands to [setRotation]. *)
Definition handleScroll (window : Window) : float :=
  let scrollPosition := scrollY window in
  let windowHeight := innerHeight window in
  let maxScroll := windowHeight * 0.5 in
  let newRotation := Math_max 0 (25 - (scrollPosition / maxScroll) * 25) in
  newRotation.

End Hero.

(* ===================================================================== *)
(** ** More sample worlds and requests *)
(* ===================================================================== *)

Module Cases.
Import Store Verify Sample.

(** The world of [Sample.world] where the service account may not read the
    spreadsheet. *)
Definition sheet_forbidden : World :=
  let w := world in
  World_ (env w) (URL_parses w) (clock w) (GoogleAuth w)
    (fun _ => Some (Error_ "GaxiosError" "The caller does not have permission"))
    (spreadsheets_values_append w) (jwt_verify w) (SignJWT_sign w) (connectDB w)
    (getTenantModel w) (db_fault w) (new_ObjectId w) (role_default w)
    (pre_save_role w) (cookies w) (cookieStore_set w).

(** The world of [Sample.world] where the client of the spreadsheet service
    cannot be built. *)
Definition client_rejected : World :=
  let w := world in
  World_ (env w) (URL_parses w) (clock w)
    (fun _ _ => Some (Error "The incoming JSON object does not contain a private_key field"))
    (spreadsheets_get w)
    (spreadsheets_values_append w) (jwt_verify w) (SignJWT_sign w) (connectDB w)
    (getTenantModel w) (db_fault w) (new_ObjectId w) (role_default w)
    (pre_save_role w) (cookies w) (cookieStore_set w).

(** The configuration of [Sample.configured] with the sheet id set to the
    empty string. *)
Definition blank_sheet_id (key : string) : option string :=
  if key =? "GOOGLE_SHEETS_ID" then Some "" else configured key.

Definition world_blank_sheet_id : World :=
  world_of blank_sheet_id "email-secret" payload.

(** The world of [Sample.world] where no tenant database can be reached. *)
Definition database_down : World :=
  let w := world in
  World_ (env w) (URL_parses w) (clock w) (GoogleAuth w) (spreadsheets_get w)
    (spreadsheets_values_append w) (jwt_verify w) (SignJWT_sign w)
    (fun _ => inl (Error_ "MongoNetworkError" "connection refused"))
    (getTenantModel w) (db_fault w) (new_ObjectId w) (role_default w)
    (pre_save_role w) (cookies w) (cookieStore_set w).

(** A body that is no JSON. *)
Definition unparseable : Lead.Request :=
  Lead.Request_ (inl (Error_ "SyntaxError" "Unexpected end of JSON input")).

(** The body [42]. *)
Definition scalar_lead : Lead.Request := Lead.Request_ (inr (VNum "42")).

(** The body [null]. *)
Definition null_lead : Lead.Request := Lead.Request_ (inr VNull).

(** A body whose four fields are all there and all malformed: a number for
    a name, an empty e-mail, a boolean for a phone, [null] for a plan. *)
Definition malformed_lead : Lead.Request :=
  Lead.Request_
    (inr (VObj 6 [("name", VNum "7"); ("email", VStr "");
                  ("phone", VBool false); ("plan", VNull)])).

(** An address with [tenant=], the empty string. *)
Definition tenant_blank : Request := Request_ (Some "good") (Some "").

(** A token whose tenant claim is the number 42, and an address with
    [tenant=42]. *)
Definition payload_numeric_tenant : jsval :=
  VObj 5 [("email", VStr "a@x.com"); ("tenant", VNum "42")].

Definition world_numeric_tenant : World :=
  world_of configured "email-secret" payload_numeric_tenant.

Definition tenant_42 : Request := Request_ (Some "good") (Some "42").

(** The user of [Sample.returning], as stored. *)
Definition stored_user : TenantUser :=
  TenantUser_ "id-0" (VStr "a@x.com") (VStr "acme") (VStr "owner")
    (Some earlier) (Some earlier).

(** That user, as saved again at the first reading of the clock. *)
Definition refreshed_user : Document :=
  Document_ false
    (TenantUser_ "id-0" (VStr "a@x.com") (VStr "acme") (VStr "owner")
       (Some earlier) (Some (today_at 0))).

(** The first user of a tenant, as saved the second time: created at the
    first reading of the clock, logged in at the third. *)
Definition first_user : Document :=
  Document_ false
    (TenantUser_ "id-0" (VStr "a@x.com") (VStr "acme") (VStr "owner")
       (Some (today_at 0)) (Some (today_at 2))).

(** The session of that user. *)
Definition owner_session : SessionClaims :=
  SessionClaims_ (VStr "a@x.com") "id-0" (VStr "acme") (VStr "owner") true
    "https://app.liveplus.pro".

End Cases.

(* ===================================================================== *)
(** ** Rules for running a handler, one statement at a time *)
(* ===================================================================== *)

Section WpRules.
Context {A B : Type}.

Lemma wp_bind (m : M A) (k : A -> M B) Q s :
  wp m (fun c s1 l1 =>
          match c with
          | Normal a => wp (k a) (fun c2 s2 l2 => Q c2 s2 (l1 ++ l2)) s1
          | Return r => Q (Return r) s1 l1
          | Throw e => Q (Throw e) s1 l1
          end) s ->
  wp (bind m k) Q s.
Proof.
  unfold wp, bind. destruct (m s) as [[c s1] l1].
  destruct c; auto. destruct (k a s1) as [[c2 s2] l2]. auto.
Qed.

Lemma wp_try_catch (m : M A) (h : error -> M A) Q s :
  wp m (fun c s1 l1 =>
          match c with
          | Throw e => wp (h e) (fun c2 s2 l2 => Q c2 s2 (l1 ++ l2)) s1
          | Normal a => Q (Normal a) s1 l1
          | Return r => Q (Return r) s1 l1
          end) s ->
  wp (try_catch m h) Q s.
Proof.
  unfold wp, try_catch. destruct (m s) as [[c s1] l1].
  destruct c; auto. destruct (h e s1) as [[c2 s2] l2]. auto.
Qed.

Lemma wp_ret (a : A) Q s : Q (Normal a) s [] -> wp (ret a) Q s.
Proof. auto. Qed.

Lemma wp_throw (e : error) (Q : completion A -> _) s :
  Q (Throw e) s [] -> wp (throw e) Q s.
Proof. auto. Qed.

Lemma wp_return (r : response) (Q : completion A -> _) s :
  Q (Return r) s [] -> wp (return_ r) Q s.
Proof. auto. Qed.

Lemma wp_lift (x : error + A) Q s :
  (forall e, x = inl e -> Q (Throw e) s []) ->
  (forall a, x = inr a -> Q (Normal a) s []) ->
  wp (lift x) Q s.
Proof. intros H1 H2. destruct x; [apply H1 | apply H2]; reflexivity. Qed.

Lemma wp_lift_inl (x : error + A) e Q s :
  x = inl e -> Q (Throw e) s [] -> wp (lift x) Q s.
Proof. intros ->. auto. Qed.

Lemma wp_lift_inr (x : error + A) a Q s :
  x = inr a -> Q (Normal a) s [] -> wp (lift x) Q s.
Proof. intros ->. auto. Qed.

Lemma wp_if (b : bool) (m1 m2 : M A) Q s :
  (b = true -> wp m1 Q s) -> (b = false -> wp m2 Q s) ->
  wp (if b then m1 else m2) Q s.
Proof. intros H1 H2. destruct b; [apply H1 | apply H2]; reflexivity. Qed.

Lemma wp_if_true (b : bool) (m1 m2 : M A) Q s :
  b = true -> wp m1 Q s -> wp (if b then m1 else m2) Q s.
Proof. intros ->. auto. Qed.

Lemma wp_if_false (b : bool) (m1 m2 : M A) Q s :
  b = false -> wp m2 Q s -> wp (if b then m1 else m2) Q s.
Proof. intros ->. auto. Qed.

Lemma wp_if_negb (b : bool) (m1 m2 : M A) Q s :
  (b = false -> wp m1 Q s) -> (b = true -> wp m2 Q s) ->
  wp (if negb b then m1 else m2) Q s.
Proof. intros H1 H2. destruct b; [apply H2 | apply H1]; reflexivity. Qed.

Lemma wp_if_negb_true (b : bool) (m1 m2 : M A) Q s :
  b = true -> wp m2 Q s -> wp (if negb b then m1 else m2) Q s.
Proof. intros ->. auto. Qed.

Lemma wp_if_negb_false (b : bool) (m1 m2 : M A) Q s :
  b = false -> wp m1 Q s -> wp (if negb b then m1 else m2) Q s.
Proof. intros ->. auto. Qed.

Lemma wp_match_option (x : option B) (f : B -> M A) (g : M A) Q s :
  (forall b, x = Some b -> wp (f b) Q s) -> (x = None -> wp g Q s) ->
  wp (match x with Some b => f b | None => g end) Q s.
Proof. intros H1 H2. destruct x; [apply H1 | apply H2]; reflexivity. Qed.

End WpRules.

Lemma wp_emit (ev : event) Q s : Q (Normal tt) s [ev] -> wp (emit ev) Q s.
Proof. auto. Qed.

Lemma wp_lift_unit (x : option error) Q s :
  (forall e, x = Some e -> Q (Throw e) s []) ->
  (x = None -> Q (Normal tt) s []) ->
  wp (lift_unit x) Q s.
Proof. intros H1 H2. destruct x; [apply H1 | apply H2]; reflexivity. Qed.

Lemma wp_lift_unit_None (x : option error) Q s :
  x = None -> Q (Normal tt) s [] -> wp (lift_unit x) Q s.
Proof. intros ->. auto. Qed.

Lemma wp_unfold {A} (m : M A) Q s :
  match m s with
  | (c, s', l) => Q c s' l
  end ->
  wp m Q s.
Proof. exact (fun H => H). Qed.

Lemma wp_call (body : M response) (P : settled * state * list event -> Prop) s :
  wp body (fun c s' l => P (settle c, s', l)) s -> P (call body s).
Proof.
  unfold wp, call. destruct (body s) as [[c s'] l]. auto.
Qed.

Section StoreRules.
Import Store.

Lemma wp_new_Date (w : World) Q s :
  (forall now s',
     now = clock w (clock_reads s) -> s' = count_clock_read s ->
     Q (Normal now) s' []) ->
  wp (new_Date w) Q s.
Proof. intros H. apply H; reflexivity. Qed.

Lemma wp_User_findOne (w : World) (db : string) (q : jsval) Q s :
  (forall e s',
     db_fault w (db_calls s) = Some e -> s' = count_db_call s ->
     Q (Throw e) s' [call_findOne db q]) ->
  (forall u s',
     db_fault w (db_calls s) = None -> s' = count_db_call s ->
     find (has_email q) (users s' db) = Some u ->
     Q (Normal (Some (Document_ false u))) s' [call_findOne db q]) ->
  (forall s',
     db_fault w (db_calls s) = None -> s' = count_db_call s ->
     find (has_email q) (users s' db) = None ->
     Q (Normal None) s' [call_findOne db q]) ->
  wp (User_findOne w db q) Q s.
Proof.
  intros Hfail Hsome Hnone.
  unfold wp, User_findOne, bind, db_operation.
  destruct (db_fault w (db_calls s)) as [e |] eqn:E.
  - apply Hfail; auto.
  - cbv beta iota.
    destruct (find (has_email q) (users (count_db_call s) db)) as [u |] eqn:F;
      simpl; [apply Hsome | apply Hnone]; auto.
Qed.

Lemma wp_new_User (w : World) (email tenantPath : jsval) (created logged : Date) Q s :
  (forall u s',
     u = TenantUser_ (new_ObjectId w (ids_made s)) email tenantPath (role_default w)
           (Some created) (Some logged) ->
     s' = count_id s ->
     Q (Normal (Document_ true u)) s' []) ->
  wp (new_User w email tenantPath created logged) Q s.
Proof. intros H. apply H; reflexivity. Qed.

Lemma wp_save (w : World) (db : string) (d : Document) Q s :
  (forall e s',
     s' = count_db_call s -> Q (Throw e) s' [call_save db d]) ->
  (forall u s' s'',
     db_fault w (db_calls s) = None -> s' = count_db_call s ->
     persisted w db d s' u s'' ->
     Q (Normal (Document_ false u)) s'' [call_save db d]) ->
  wp (save w db d) Q s.
Proof.
  intros Hfail Hok.
  unfold wp, save, bind, db_operation.
  destruct (db_fault w (db_calls s)) as [e |] eqn:E.
  - apply Hfail; auto.
  - cbv beta iota zeta.
    destruct (isNew d) eqn:N; destruct (has_id _ _) eqn:I; simpl.
    + apply Hfail; reflexivity.
    + eapply Hok; [reflexivity | reflexivity |].
      split; [reflexivity |]. left. repeat split; assumption.
    + eapply Hok; [reflexivity | reflexivity |].
      split; [reflexivity |]. right. repeat split; assumption.
    + apply Hfail; reflexivity.
Qed.

End StoreRules.

(** One step: the rule of the statement at the head, with what is already
    known of the world's answer, or else by cases on it. *)
Ltac wp_head m :=
  lazymatch m with
  | ?f _ _ _ _ _ _ => f
  | ?f _ _ _ _ _ => f
  | ?f _ _ _ _ => f
  | ?f _ _ _ => f
  | ?f _ _ => f
  | ?f _ => f
  | ?f => f
  end.

Ltac wp_step :=
  lazymatch goal with
  | |- wp (bind _ _) _ _ => apply wp_bind
  | |- wp (try_catch _ _) _ _ => apply wp_try_catch
  | |- wp (ret _) _ _ => apply wp_ret
  | |- wp (throw _) _ _ => apply wp_throw
  | |- wp (return_ _) _ _ => apply wp_return
  | |- wp (emit _) _ _ => apply wp_emit
  | |- wp (lift ?x) _ _ =>
      match goal with
      | H : x = inr _ |- _ => apply (wp_lift_inr _ _ _ _ H)
      | H : x = inl _ |- _ => apply (wp_lift_inl _ _ _ _ H)
      | _ => apply wp_lift; intros
      end
  | |- wp (lift_unit ?x) _ _ =>
      match goal with
      | H : x = None |- _ => apply (wp_lift_unit_None _ _ _ H)
      | _ => apply wp_lift_unit; intros
      end
  | |- wp (if negb ?b then _ else _) _ _ =>
      match goal with
      | H : b = true |- _ => apply (wp_if_negb_true _ _ _ _ _ H)
      | H : b = false |- _ => apply (wp_if_negb_false _ _ _ _ _ H)
      | _ => apply wp_if_negb; intros
      end
  | |- wp (if ?b then _ else _) _ _ =>
      match goal with
      | H : b = true |- _ => apply (wp_if_true _ _ _ _ _ H)
      | H : b = false |- _ => apply (wp_if_false _ _ _ _ _ H)
      | _ => apply wp_if; intros
      end
  | |- wp (match ?x with Some _ => _ | None => _ end) _ _ =>
      apply wp_match_option; intros
  | |- wp (let (_, _) := ?x in _) _ _ => destruct x
  | |- wp (new_Date _) _ _ => apply wp_new_Date; intros
  | |- wp (Store.User_findOne _ _ _) _ _ => apply wp_User_findOne; intros
  | |- wp (Store.new_User _ _ _ _ _) _ _ => apply wp_new_User; intros
  | |- wp (Store.save _ _ _) _ _ => apply wp_save; intros
  | |- wp (fun _ => _) _ _ => apply wp_unfold
  | |- wp ?m _ _ => let f := wp_head m in unfold f at 1
  end; cbv beta iota zeta.

Ltac wp_run := repeat wp_step.

(* ===================================================================== *)
(** ** The lead-submission handler: properties *)
(* ===================================================================== *)

Section LeadProperties.
Import Lead Format LeadChecks.

Lemma forallb_Z_range (P : Z -> bool) (lo len : Z) :
  forallb P (map Z.of_nat (seq (Z.to_nat lo) (Z.to_nat len))) = true ->
  forall z, (0 <= lo)%Z -> (lo <= z < lo + len)%Z -> P z = true.
Proof.
  intros H z Hlo Hz.
  rewrite forallb_forall in H. apply H.
  apply in_map_iff. exists (Z.to_nat z). split; [lia |].
  apply in_seq. lia.
Qed.

Lemma padStart_two_digits (n : Z) :
  (0 <= n <= 99)%Z -> padStart (String_of_Z n) 2 "0" = digits 2 n.
Proof.
  intros Hn.
  apply String.eqb_eq.
  apply (forallb_Z_range
           (fun z => String.eqb (padStart (String_of_Z z) 2 "0") (digits 2 z))
           0 100).
  - vm_compute. reflexivity.
  - lia.
  - lia.
Qed.

Lemma String_of_Z_four_digits (n : Z) :
  (1000 <= n <= 9999)%Z -> String_of_Z n = digits 4 n.
Proof.
  intros Hn.
  apply String.eqb_eq.
  apply (forallb_Z_range
           (fun z => String.eqb (String_of_Z z) (digits 4 z)) 1000 9000).
  - vm_compute. reflexivity.
  - lia.
  - lia.
Qed.

(** The date of line 41 is the date in the format the spec names. *)
Lemma formattedDate_DD_MM_YYYY (d : Date) :
  calendar d -> formattedDate d = DD_MM_YYYY d.
Proof.
  intros (Hd & Hm & Hy).
  unfold formattedDate, DD_MM_YYYY.
  rewrite !padStart_two_digits by lia.
  rewrite String_of_Z_four_digits by lia.
  reflexivity.
Qed.

Lemma missing_env_check (w : World) :
  env w "GOOGLE_SHEETS_ID" = None \/
  env w "GOOGLE_SHEETS_CLIENT_EMAIL" = None \/
  env w "GOOGLE_SHEETS_PRIVATE_KEY" = None ->
  (negb (nonempty (env w "GOOGLE_SHEETS_ID")) ||
   negb (nonempty (env w "GOOGLE_SHEETS_CLIENT_EMAIL")) ||
   negb (nonempty (env w "GOOGLE_SHEETS_PRIVATE_KEY")))%bool = true.
Proof.
  intros [H | [H | H]]; rewrite H; simpl; rewrite ?orb_true_r; reflexivity.
Qed.

Lemma configured_env_check (w : World) :
  nonempty (env w "GOOGLE_SHEETS_ID") = true ->
  nonempty (env w "GOOGLE_SHEETS_CLIENT_EMAIL") = true ->
  nonempty (env w "GOOGLE_SHEETS_PRIVATE_KEY") = true ->
  (negb (nonempty (env w "GOOGLE_SHEETS_ID")) ||
   negb (nonempty (env w "GOOGLE_SHEETS_CLIENT_EMAIL")) ||
   negb (nonempty (env w "GOOGLE_SHEETS_PRIVATE_KEY")))%bool = false /\
  exists k, env w "GOOGLE_SHEETS_PRIVATE_KEY" = Some k.
Proof.
  intros H1 H2 H3. rewrite H1, H2, H3. split; [reflexivity |].
  destruct (env w "GOOGLE_SHEETS_PRIVATE_KEY") as [k |]; [eauto | discriminate].
Qed.

(** Whatever is not [null] or [undefined] destructures, each field to
    what the body holds under its name, or to [undefined]. *)
Lemma destructure_total (body : jsval) :
  body <> VNull -> body <> VUndefined ->
  exists name email phone plan,
    destructure body = inr (name, email, phone, plan) /\
    get body "name" = inr name /\ get body "email" = inr email /\
    get body "phone" = inr phone /\ get body "plan" = inr plan.
Proof.
  intros Hn Hu. unfold destructure.
  destruct body; try congruence; simpl; eauto 10.
  destruct (lookup "name" props), (lookup "email" props),
    (lookup "phone" props), (lookup "plan" props); eauto 10.
Qed.

(** The row reaches the spreadsheet with the fields as they came; the
    answer is the spreadsheet's. *)
Lemma POST_reaches_append (w : World) (request : Request) (s : state)
  (body name email phone plan : jsval) :
  let row := [name; email; phone; plan;
              VStr (formattedDate (clock w (clock_reads s)))] in
  json request = inr body ->
  destructure body = inr (name, email, phone, plan) ->
  nonempty (env w "GOOGLE_SHEETS_ID") = true ->
  nonempty (env w "GOOGLE_SHEETS_CLIENT_EMAIL") = true ->
  nonempty (env w "GOOGLE_SHEETS_PRIVATE_KEY") = true ->
  (forall c scopes, GoogleAuth w c scopes = None) ->
  spreadsheets_get w (env w "GOOGLE_SHEETS_ID") = None ->
  flat_map appended_rows (events (call (POST w request) s)) = [row] /\
  answer (call (POST w request) s) =
    match spreadsheets_values_append w (env w "GOOGLE_SHEETS_ID") "A:E"
            "USER_ENTERED" [row] with
    | inr _ => Resolved (NextResponse_json [("message", "Success")] 200)
    | inl e =>
        Resolved (NextResponse_json
          [("message", "Internal server error"); ("error", message e);
           ("type", JS.name e)] 500)
    end.
Proof.
  intros row Hbody Hfields H1 H2 H3 Hauth Hget.
  destruct (configured_env_check w H1 H2 H3) as [Hcheck [k Hk]].
  subst row.
  unfold POST, unescaped_private_key, new_GoogleAuth, sheets_spreadsheets_get,
    sheets_spreadsheets_values_append.
  unfold answer, events, call, settle, try_catch, bind, when, lift, lift_unit,
    emit, ret, throw, return_, new_Date.
  rewrite Hbody, Hfields, Hcheck, Hk. simpl.
  rewrite Hauth. simpl. rewrite Hget. simpl.
  destruct (spreadsheets_values_append w _ _ _ _); simpl; auto.
Qed.

(** What line 7 gives for a body that is neither [null] nor [undefined]:
    under each name what the body holds there, or [undefined]. *)
Lemma destructure_supplied (body : jsval) :
  body <> VNull -> body <> VUndefined ->
  destructure body
    = inr (supplied body "name", supplied body "email", supplied body "phone",
           supplied body "plan").
Proof.
  intros Hn Hu. unfold destructure, supplied, get.
  destruct body; try congruence; try reflexivity.
  destruct (lookup "name" props), (lookup "email" props),
    (lookup "phone" props), (lookup "plan" props); reflexivity.
Qed.

(** What line 7 binds, when it binds: under each name what the body holds
    there, or [undefined]. *)
Lemma destructure_fields (body name email phone plan : jsval) :
  destructure body = inr (name, email, phone, plan) ->
  name = supplied body "name" /\ email = supplied body "email" /\
  phone = supplied body "phone" /\ plan = supplied body "plan".
Proof.
  unfold destructure, supplied, get.
  destruct body; try discriminate.
  all: try (intros H; injection H as <- <- <- <-; repeat split; reflexivity).
  destruct (lookup "name" props), (lookup "email" props),
    (lookup "phone" props), (lookup "plan" props).
  all: intros H; injection H as <- <- <- <-; repeat split; reflexivity.
Qed.

(** C5. For every lead submission that succeeds (the handler answers 200),
    the request had a body, and exactly one row was appended; the row has
    five fields: the name, the e-mail, the phone and the plan of that
    body, and the date of the clock, written DD/MM/YYYY with day and month
    padded to two digits; and the answer is the message Success. *)
Theorem POST_success_appends_row (w : World) (request : Request) (s : state)
  (reply : list (string * string)) :
  let today := clock w (clock_reads s) in
  answer (call (POST w request) s) = Resolved (NextResponse_json reply 200) ->
  calendar today ->
  exists body,
    json request = inr body /\
    flat_map appended_rows (events (call (POST w request) s))
      = [[supplied body "name"; supplied body "email"; supplied body "phone";
          supplied body "plan"; VStr (DD_MM_YYYY today)]] /\
    reply = [("message", "Success")].
Proof.
  intros today Hanswer Hcal. revert Hanswer.
  rewrite <- (formattedDate_DD_MM_YYYY today Hcal). subst today.
  pattern (call (POST w request) s). apply wp_call. unfold POST.
  wp_run.
  all: cbv [answer events settle fst snd].
  all: intros Hanswer; try discriminate Hanswer.
  all: injection Hanswer as <-; subst.
  all: match goal with
       | Hd : destructure ?b = inr (?n, ?e, ?p, ?pl) |- _ =>
           destruct (destructure_fields b n e p pl Hd) as (-> & -> & -> & ->);
           exists b
       end.
  all: split; [assumption | split; reflexivity].
Qed.

(** C6. For every lead submission made while the sheet id, the client
    e-mail or the private key is unset, the handler answers 500, and no
    call to the spreadsheet service, nor the construction of its client,
    has been made. *)
Theorem POST_missing_env_500 (w : World) (request : Request) (s : state) :
  env w "GOOGLE_SHEETS_ID" = None \/
  env w "GOOGLE_SHEETS_CLIENT_EMAIL" = None \/
  env w "GOOGLE_SHEETS_PRIVATE_KEY" = None ->
  (exists body,
     answer (call (POST w request) s) = Resolved (NextResponse_json body 500)) /\
  none is_external_call (events (call (POST w request) s)) = true.
Proof.
  intros H. apply missing_env_check in H.
  pattern (call (POST w request) s). apply wp_call. unfold POST.
  wp_run.
  all: cbv [answer events settle fst snd]; split; [eauto | reflexivity].
Qed.

(** C10, amended. For every body that parses to anything but [null], the
    handler looks at none of name, email, phone and plan: whatever the body
    holds under these names, and [undefined] for a name it does not hold
    and for every name when the body is no object, is in the row offered to
    the spreadsheet, unchanged; and the answer is 200 or 500 as the
    spreadsheet takes or refuses the row, never a refusal of the handler's
    own. *)
Theorem POST_fields_unvalidated (w : World) (request : Request) (s : state)
  (body : jsval) :
  let row := [supplied body "name"; supplied body "email";
              supplied body "phone"; supplied body "plan";
              VStr (formattedDate (clock w (clock_reads s)))] in
  json request = inr body ->
  body <> VNull -> body <> VUndefined ->
  nonempty (env w "GOOGLE_SHEETS_ID") = true ->
  nonempty (env w "GOOGLE_SHEETS_CLIENT_EMAIL") = true ->
  nonempty (env w "GOOGLE_SHEETS_PRIVATE_KEY") = true ->
  (forall c scopes, GoogleAuth w c scopes = None) ->
  spreadsheets_get w (env w "GOOGLE_SHEETS_ID") = None ->
  flat_map appended_rows (events (call (POST w request) s)) = [row] /\
  (forall status,
     spreadsheets_values_append w (env w "GOOGLE_SHEETS_ID") "A:E" "USER_ENTERED" [row]
       = inr status ->
     answer (call (POST w request) s)
       = Resolved (NextResponse_json [("message", "Success")] 200)) /\
  (forall e,
     spreadsheets_values_append w (env w "GOOGLE_SHEETS_ID") "A:E" "USER_ENTERED" [row]
       = inl e ->
     answer (call (POST w request) s)
       = Resolved (NextResponse_json
           [("message", "Internal server error"); ("error", message e);
            ("type", JS.name e)] 500)).
Proof.
  intros row Hbody Hn Hu H1 H2 H3 Hauth Hget.
  pose proof (destructure_supplied body Hn Hu) as Hfields.
  destruct (POST_reaches_append w request s body _ _ _ _
              Hbody Hfields H1 H2 H3 Hauth Hget) as [Hrows Hanswer].
  fold row in Hrows, Hanswer.
  split; [exact Hrows |].
  split; intros x Hx; rewrite Hx in Hanswer; exact Hanswer.
Qed.

End LeadProperties.

Lemma POST_success_appends_row_witness :
  flat_map Lead.appended_rows (events (call (Lead.POST Sample.world Sample.lead) Sample.start))
    = [[VStr "Ana"; VStr "ana@x.com"; VStr "+55 11 99999-0000"; VStr "pro";
        VStr "03/11/2026"]].
Proof.
  destruct (POST_success_appends_row Sample.world Sample.lead Sample.start
              [("message", "Success")]) as (body & Hbody & Hrows & _).
  - reflexivity.
  - unfold Format.calendar. simpl. lia.
  - injection Hbody as <-. exact Hrows.
Defined.

Lemma POST_missing_env_500_witness :
  (exists body,
     answer (call (Lead.POST Sample.world_without_env Sample.lead) Sample.start)
       = Resolved (NextResponse_json body 500)) /\
  none Lead.is_external_call
    (events (call (Lead.POST Sample.world_without_env Sample.lead) Sample.start)) = true.
Proof.
  apply (POST_missing_env_500 Sample.world_without_env Sample.lead Sample.start).
  left. reflexivity.
Defined.

Lemma POST_fields_unvalidated_witness :
  (flat_map Lead.appended_rows
     (events (call (Lead.POST Sample.world Cases.malformed_lead) Sample.start))
     = [[VNum "7"; VStr ""; VBool false; VNull; VStr "03/11/2026"]] /\
   answer (call (Lead.POST Sample.world Cases.malformed_lead) Sample.start)
     = Resolved (NextResponse_json [("message", "Success")] 200)) /\
  flat_map Lead.appended_rows
    (events (call (Lead.POST Sample.world Sample.odd_lead) Sample.start))
    = [[VNum "7"; VStr ""; VUndefined; VUndefined; VStr "03/11/2026"]].
Proof.
  split.
  - destruct (POST_fields_unvalidated Sample.world Cases.malformed_lead Sample.start
                (VObj 6 [("name", VNum "7"); ("email", VStr "");
                         ("phone", VBool false); ("plan", VNull)]))
      as (Hrows & Htaken & _).
    + reflexivity.
    + discriminate.
    + discriminate.
    + reflexivity.
    + reflexivity.
    + reflexivity.
    + intros c scopes. reflexivity.
    + reflexivity.
    + split; [exact Hrows | apply (Htaken 200%Z); reflexivity].
  - destruct (POST_fields_unvalidated Sample.world Sample.odd_lead Sample.start
                (VObj 4 [("name", VNum "7"); ("email", VStr "")]))
      as (Hrows & _).
    + reflexivity.
    + discriminate.
    + discriminate.
    + reflexivity.
    + reflexivity.
    + reflexivity.
    + intros c scopes. reflexivity.
    + reflexivity.
    + exact Hrows.
Defined.

(** The body [null] parses, and is refused: line 7 throws on it, the
    handler answers 500 and offers no row to the spreadsheet. *)
Lemma POST_null_body_refused :
  Lead.json Cases.null_lead = inr VNull /\
  (exists detail,
     answer (call (Lead.POST Sample.world Cases.null_lead) Sample.start)
       = Resolved (NextResponse_json
           [("message", "Internal server error"); ("error", detail);
            ("type", "TypeError")] 500)) /\
  events (call (Lead.POST Sample.world Cases.null_lead) Sample.start)
    = [console_error "Detailed error:"] /\
  flat_map Lead.appended_rows
    (events (call (Lead.POST Sample.world Cases.null_lead) Sample.start)) = [].
Proof.
  split; [reflexivity |].
  split; [eexists; reflexivity |].
  split; reflexivity.
Qed.

(* ===================================================================== *)
(** ** The verification handler: properties *)
(* ===================================================================== *)

Section VerifyProperties.
Import Store Verify Checks.

Lemma only_after_split (first guarded : event -> bool) (l : list event) :
  only_after first guarded l = true ->
  forall pre ev post,
    l = pre ++ ev :: post -> guarded ev = true -> existsb first pre = true.
Proof.
  induction l as [| x l IH]; intros H pre ev post Hl Hg.
  - destruct pre; discriminate.
  - simpl in H. apply andb_true_iff in H. destruct H as [Hx H].
    destruct pre as [| y pre]; simpl in Hl; injection Hl as -> ->.
    + rewrite Hg in Hx. discriminate.
    + simpl. destruct (first y); [reflexivity |].
      simpl. eapply IH; eauto.
Qed.

Lemma existsb_split (p : event -> bool) (pre post : list event) (ev : event) :
  p ev = true -> existsb p (pre ++ ev :: post) = true.
Proof.
  intros H. rewrite existsb_app. simpl. rewrite H. apply orb_true_r.
Qed.


(** An address compared to a string is that string. *)
Lemma strict_eq_of_param (x : option string) (v : jsval) :
  truthy (of_param x) = true -> strict_eq (of_param x) v = true -> v = of_param x.
Proof.
  destruct x as [t |]; simpl; [| discriminate].
  intros _. destruct v; simpl; try discriminate.
  intros H. apply String.eqb_eq in H. congruence.
Qed.







(** The tenant the checks leave, from what is known of the two tenants. *)
Ltac solve_adopted :=
  unfold adopted;
  repeat match goal with
         | H : truthy _ = _ |- _ => rewrite H
         end;
  simpl; assumption.

(** No session or user call comes before the token is verified, and one
    occurs only if the checks passed. *)
Lemma GET_guarded_calls (w : World) (request : Request) (s : state) :
  only_after is_jwt_verify is_guarded (events (call (GET w request) s)) = true /\
  (existsb is_guarded (events (call (GET w request) s)) = true ->
   checks_passed w request).
Proof.
  pattern (call (GET w request) s). apply wp_call. unfold GET.
  wp_run.
  all: cbv [answer events settle fst snd].
  all: (split; [reflexivity | simpl; try discriminate]).
  all: intros _; split; [assumption |].
  all: do 2 eexists; split; [eassumption | split; [eassumption | solve_adopted]].
Qed.

(** C1. For every verification request, a call that signs the session
    token or sets its cookie, and a call that reads, creates or modifies a
    user record, comes only after the call that verifies the e-mail token,
    and only when that verification succeeded and the tenant the handler
    settled on equals the one in the token. *)
Theorem GET_session_and_user_only_after_checks
  (w : World) (request : Request) (s : state) (pre post : list event) (ev : event) :
  events (call (GET w request) s) = pre ++ ev :: post ->
  is_session_call ev = true \/ is_user_call ev = true ->
  checks_passed w request /\ existsb is_jwt_verify pre = true.
Proof.
  intros Hsplit Hev.
  assert (Hg : is_guarded ev = true).
  { unfold is_guarded. destruct Hev as [-> | ->]; [reflexivity | apply orb_true_r]. }
  destruct (GET_guarded_calls w request s) as [Horder Hchecks].
  split.
  - apply Hchecks. rewrite Hsplit. apply existsb_split. exact Hg.
  - eapply only_after_split; eauto.
Qed.

(** C2, amended. For every verification request whose token verifies and
    whose tenant, once resolved, differs from the one in the token, the
    handler makes no call to the database (no connection, no model, no
    lookup, no save) and changes nothing.  It redirects to the
    invalid-tenant page of the base URL provided that page is an address a
    redirect can be built for; when it is not, the outer [catch] runs, and
    the handler redirects to the server-error page if that one is an
    address, and rejects otherwise. *)
Theorem GET_tenant_mismatch (w : World) (request : Request) (s : state)
  (decoded token_tenant : jsval) :
  nonempty (token_param request) = true ->
  jwt_verify w (token_param request) (EMAIL_SECRET w) = inr decoded ->
  get decoded "tenant" = inr token_tenant ->
  strict_eq (adopted (of_param (tenant_param request)) token_tenant) token_tenant
    = false ->
  answer (call (GET w request) s)
    = (if URL_parses w (error_page w "invalid-tenant")
       then Resolved (NextResponse_redirect (error_page w "invalid-tenant"))
       else if URL_parses w (error_page w "server-error")
       then Resolved (NextResponse_redirect (error_page w "server-error"))
       else Rejected (TypeError "Invalid URL")) /\
  none is_db_call (events (call (GET w request) s)) = true /\
  final_state (call (GET w request) s) = s.
Proof.
  intros Htoken Hverify Htenant Hdiffer.
  unfold adopted in Hdiffer.
  destruct (truthy (of_param (tenant_param request))) eqn:Hu;
    destruct (truthy token_tenant) eqn:Ht; simpl in Hdiffer.
  all: pattern (call (GET w request) s); apply wp_call; unfold GET.
  all: wp_run.
  all: cbv [answer events final_state settle fst snd].
  all: try congruence.
  all: repeat match goal with
              | H : URL_parses _ _ = _ |- _ => rewrite H
              end.
  all: repeat split; reflexivity.
Qed.

(** C3, amended. For every verification request whose token is missing, or
    is rejected by the verification (malformed, badly signed, expired),
    whatever the tenant parameter, the handler makes no call to the
    database and changes nothing.  It redirects to the invalid-token page
    of the base URL provided that page is an address a redirect can be
    built for; when it is not, the outer [catch] runs, and the handler
    redirects to the server-error page if that one is an address, and
    rejects otherwise. *)
Theorem GET_bad_token_redirects (w : World) (request : Request) (s : state) :
  (nonempty (token_param request) = false \/
   exists e, jwt_verify w (token_param request) (EMAIL_SECRET w) = inl e) ->
  answer (call (GET w request) s)
    = (if URL_parses w (error_page w "invalid-token")
       then Resolved (NextResponse_redirect (error_page w "invalid-token"))
       else if URL_parses w (error_page w "server-error")
       then Resolved (NextResponse_redirect (error_page w "server-error"))
       else Rejected (TypeError "Invalid URL")) /\
  none is_db_call (events (call (GET w request) s)) = true /\
  final_state (call (GET w request) s) = s.
Proof.
  intros Htoken.
  pattern (call (GET w request) s). apply wp_call. unfold GET.
  destruct Htoken as [Ht | [e He]]; wp_run.
  all: cbv [answer events final_state settle fst snd].
  all: repeat match goal with
              | H : URL_parses _ _ = _ |- _ => rewrite H
              end.
  all: repeat split; reflexivity.
Qed.

(** C7, amended. Provided the server-error page of the base URL is an
    address a redirect can be built for, then for every request and
    whatever the collaborators do or throw, the handler answers a redirect
    and never rejects; and once the outer [catch] has run, the redirect is
    to the server-error page. *)
Theorem GET_always_redirects (w : World) (request : Request) (s : state) :
  URL_parses w (error_page w "server-error") = true ->
  (exists url, answer (call (GET w request) s) = Resolved (NextResponse_redirect url)) /\
  (In (console_error "Verification error:") (events (call (GET w request) s)) ->
   answer (call (GET w request) s)
     = Resolved (NextResponse_redirect (error_page w "server-error"))).
Proof.
  intros Hurl.
  pattern (call (GET w request) s). apply wp_call. unfold GET.
  wp_run.
  all: cbv [answer events settle fst snd].
  all: (split; [eauto | try reflexivity]).
  all: simpl; intuition discriminate.
Qed.

(** C8, amended. The secret every token is verified with is
    [process.env.EMAIL_SECRET], or the literal [your-secret-key] when that
    is unset or empty; the secret every session is signed with is
    [process.env.JWT_SECRET], or the literal [your-jwt-secret]; the
    external domain written in every session and the domain of every
    cookie are the constants [https://app.liveplus.pro] and
    [.liveplus.pro], and a successful verification redirects under
    [https://app.liveplus.pro], whatever the environment. *)
Theorem GET_secrets_and_domain (w : World) (request : Request) (s : state) :
  Forall (configured_by w) (events (call (GET w request) s)) /\
  (succeeded (call (GET w request) s) ->
   exists segment,
     answer (call (GET w request) s)
       = Resolved (NextResponse_redirect
           ("https://app.liveplus.pro" +++ "/" +++ segment +++ "/financeiro"))).
Proof.
  pattern (call (GET w request) s). apply wp_call. unfold GET.
  wp_run.
  all: cbv [succeeded answer events settle fst snd].
  all: split; [simpl; repeat constructor |].
  all: intros [_ Hlog]; try discriminate Hlog.
  all: eexists; reflexivity.
Qed.





End VerifyProperties.

(* ===================================================================== *)
(** ** The user store: properties *)
(* ===================================================================== *)

Section StoreProperties.
Import Store.

Lemma find_filter_cons (p : TenantUser -> bool) (l : list TenantUser) (u : TenantUser) :
  find p l = Some u -> exists rest, filter p l = u :: rest.
Proof.
  induction l as [| x l IH]; simpl; [discriminate |].
  destruct (p x); [intros [= ->]; eauto | exact IH].
Qed.

Lemma find_filter_nil (p : TenantUser -> bool) (l : list TenantUser) :
  find p l = None -> filter p l = [].
Proof.
  induction l as [| x l IH]; simpl; [reflexivity |].
  destruct (p x); [discriminate | exact IH].
Qed.

Lemma find_one (q : jsval) (l : list TenantUser) (u : TenantUser) :
  length (filter (has_email q) l) <= 1 ->
  find (has_email q) l = Some u ->
  filter (has_email q) l = [u].
Proof.
  intros Hone Hfind.
  destruct (find_filter_cons _ _ _ Hfind) as [rest Hrest].
  rewrite Hrest in *. destruct rest; [reflexivity | simpl in Hone; lia].
Qed.

Lemma has_id_false_In (id : string) (l : list TenantUser) (x : TenantUser) :
  has_id id l = false -> In x l -> (_id x =? id) = false.
Proof.
  unfold has_id. intros H Hin.
  destruct (_id x =? id) eqn:E; [| reflexivity].
  rewrite <- H. symmetry. apply existsb_exists. eauto.
Qed.

Lemma replace_by_id_ids (u : TenantUser) (l : list TenantUser) :
  map _id (replace_by_id u l) = map _id l.
Proof.
  induction l as [| x l IH]; simpl; [reflexivity |].
  destruct (_id x =? _id u) eqn:E; simpl.
  - apply String.eqb_eq in E. rewrite E. reflexivity.
  - rewrite IH. reflexivity.
Qed.

Lemma replace_by_id_length (u : TenantUser) (l : list TenantUser) :
  length (replace_by_id u l) = length l.
Proof.
  rewrite <- (length_map _id), replace_by_id_ids. apply length_map.
Qed.

(** Replacing the one record found for an e-mail, under its identifier and
    with the same e-mail, leaves one record for that e-mail. *)
Lemma replace_by_id_filter (p : TenantUser -> bool) (l : list TenantUser)
  (old u : TenantUser) :
  NoDup (map _id l) -> _id u = _id old -> p u = true ->
  filter p l = [old] ->
  filter p (replace_by_id u l) = [u].
Proof.
  intros Hnd Hid Hu.
  induction l as [| x l IH]; simpl; [discriminate |].
  inversion Hnd as [| ? ? Hx Hnd']; subst.
  destruct (p x) eqn:Px.
  - intros [= -> Hrest].
    rewrite Hid, String.eqb_refl. simpl. rewrite Hu, Hrest. reflexivity.
  - intros Hf.
    assert (Hin : In old l).
    { assert (H : In old (filter p l)) by (rewrite Hf; left; reflexivity).
      apply filter_In in H. tauto. }
    destruct (_id x =? _id u) eqn:E.
    + exfalso. apply Hx. apply String.eqb_eq in E. rewrite E, Hid.
      apply in_map. exact Hin.
    + simpl. rewrite Px. apply IH; assumption.
Qed.

Lemma users_with_users (s : state) (db : string) (l : list TenantUser) :
  users (with_users s db l) db = l.
Proof. simpl. rewrite String.eqb_refl. reflexivity. Qed.

Lemma has_email_refl (u : TenantUser) : has_email (email u) u = true.
Proof.
  unfold has_email. destruct (email u); simpl;
    auto using String.eqb_refl, Nat.eqb_refl.
  destruct b; reflexivity.
Qed.

(** A stored document saved again: the one record of its e-mail is
    replaced, nothing is added. *)
Lemma persisted_update (w : World) (db : string) (s s'' : state) (q : jsval)
  (old d u : TenantUser) :
  NoDup (map _id (users s db)) ->
  filter (has_email q) (users s db) = [old] ->
  _id d = _id old -> email d = email old ->
  persisted w db (Document_ false d) s u s'' ->
  filter (has_email q) (users s'' db) = [u] /\
  NoDup (map _id (users s'' db)) /\
  length (users s'' db) = length (users s db) /\
  _id u = _id old /\ email u = email old /\ lastLoginAt u = lastLoginAt d /\
  clock_reads s'' = clock_reads s.
Proof.
  intros Hnd Hf Hid Hemail [Hu [[Hnew _] | [_ [Hin Hs]]]]; [discriminate |].
  simpl in Hu.
  assert (Hold : has_email q old = true).
  { assert (H : In old (filter (has_email q) (users s db)))
      by (rewrite Hf; left; reflexivity).
    apply filter_In in H. tauto. }
  assert (Hidu : _id u = _id old) by (rewrite Hu; exact Hid).
  assert (Hemu : email u = email old) by (rewrite Hu; exact Hemail).
  assert (Hpu : has_email q u = true).
  { unfold has_email in *. rewrite Hemu. exact Hold. }
  pose proof (replace_by_id_filter (has_email q) (users s db) old u Hnd Hidu Hpu Hf)
    as Hf'.
  rewrite Hs, users_with_users.
  rewrite replace_by_id_ids, replace_by_id_length.
  repeat split; auto.
  rewrite Hu. reflexivity.
Qed.

(** A new document saved: it becomes the one record of its e-mail. *)
Lemma persisted_insert (w : World) (db : string) (s s'' : state) (q : jsval)
  (d u : TenantUser) :
  NoDup (map _id (users s db)) ->
  find (has_email q) (users s db) = None ->
  email d = q ->
  persisted w db (Document_ true d) s u s'' ->
  filter (has_email q) (users s'' db) = [u] /\
  NoDup (map _id (users s'' db)) /\
  length (users s'' db) = S (length (users s db)) /\
  lastLoginAt u = lastLoginAt d /\
  clock_reads s'' = clock_reads s.
Proof.
  intros Hnd Hfind Hemail [Hu [[_ [Hnew Hs]] | [Hold _]]]; [| discriminate].
  simpl in Hu.
  assert (Hpu : has_email q u = true).
  { rewrite <- Hemail, Hu. apply (has_email_refl (set_role d _)). }
  rewrite Hs, users_with_users.
  rewrite filter_app, (find_filter_nil _ _ Hfind). simpl. rewrite Hpu.
  rewrite map_app, length_app. simpl.
  repeat split; auto.
  - apply NoDup_app; [exact Hnd | repeat constructor; simpl; tauto |].
    intros id Hin [<- | []].
    apply in_map_iff in Hin. destruct Hin as [x [Hx Hin]].
    pose proof (has_id_false_In _ _ x Hnew Hin) as Hne.
    rewrite Hx, String.eqb_refl in Hne. discriminate.
  - lia.
  - rewrite Hu. reflexivity.
Qed.

End StoreProperties.

(** What a [save] that went through says of the collection, given what
    was known of it before. *)
Ltac use_persisted :=
  match goal with
  | Hp : Store.persisted ?w ?db (Document_ false ?d) ?s0 ?u ?s2,
    Hf : filter (Store.has_email ?q) (users _ ?db) = [?old],
    Hn : NoDup (map _id (users _ ?db)) |- _ =>
      let F := fresh "F" in
      let N := fresh "N" in
      let L := fresh "L" in
      let I := fresh "I" in
      let E := fresh "E" in
      let T := fresh "T" in
      let C := fresh "C" in
      destruct (persisted_update w db s0 s2 q old d u Hn Hf eq_refl eq_refl Hp)
        as (F & N & L & I & E & T & C);
      clear Hp Hf Hn
  | Hp : Store.persisted ?w ?db (Document_ true ?d) ?s0 ?u ?s2,
    Hf : find (Store.has_email ?q) (users _ ?db) = None,
    Hn : NoDup (map _id (users _ ?db)) |- _ =>
      let F := fresh "F" in
      let N := fresh "N" in
      let L := fresh "L" in
      let T := fresh "T" in
      let C := fresh "C" in
      destruct (persisted_insert w db s0 s2 q d u Hn Hf eq_refl Hp)
        as (F & N & L & T & C);
      clear Hp Hn
  end.

Section VerifyStore.
Import Store Verify Checks.

(** C4. After every successful verification of a token for an e-mail
    within a tenant, the tenant's collection (in which identifiers are
    unique and at most one record had that e-mail) holds exactly one record
    for that e-mail, whose [lastLoginAt] is the latest reading of the
    clock: if a record existed it is that record, under the same
    identifier, and the collection has not grown; if none existed the
    collection has grown by exactly one. *)
Theorem GET_success_one_user_record (w : World) (request : Request) (s : state)
  (decoded query_email token_tenant : jsval) (db : string) :
  succeeded (call (GET w request) s) ->
  jwt_verify w (token_param request) (EMAIL_SECRET w) = inr decoded ->
  get decoded "email" = inr query_email ->
  get decoded "tenant" = inr token_tenant ->
  connectDB w (adopted (of_param (tenant_param request)) token_tenant) = inr db ->
  NoDup (map _id (users s db)) ->
  length (filter (has_email query_email) (users s db)) <= 1 ->
  let s' := final_state (call (GET w request) s) in
  exists u,
    filter (has_email query_email) (users s' db) = [u] /\
    lastLoginAt u = Some (clock w (pred (clock_reads s'))) /\
    match filter (has_email query_email) (users s db) with
    | old :: _ => _id u = _id old /\ length (users s' db) = length (users s db)
    | [] => length (users s' db) = S (length (users s db))
    end.
Proof.
  intros Hok Hverify Hemail Htenant Hdb Hnd Hone s'. subst s'.
  revert Hok.
  pattern (call (GET w request) s); apply wp_call; unfold GET.
  wp_run.
  all: cbv [succeeded answer events final_state settle fst snd].
  all: intros [_ Hlog]; try discriminate Hlog.
  all: clear Hlog; cbn [isNew fields] in *; subst.
  all: unfold adopted in Hdb;
    repeat match goal with
           | H : truthy _ = _ |- _ => rewrite H in Hdb
           end;
    simpl in Hdb.
  all:
    match goal with
    | Hc : connectDB _ _ = inr ?a |- _ =>
        rewrite Hdb in Hc; injection Hc as <-
    end.
  all:
    match goal with
    | Hfind : find _ _ = Some _ |- _ =>
        pose proof (find_one _ _ _ Hone Hfind) as Hfound
    | _ => idtac
    end.
  all: repeat use_persisted.
  all: match goal with F : filter _ (users _ _) = [?u] |- _ => exists u end.
  all: cbn [users clock_reads count_db_call count_clock_read count_id with_cookie] in *.
  all: split; [assumption | split].
  all:
    try match goal with
    | T : lastLoginAt ?u = _, C : clock_reads ?s = _
      |- lastLoginAt ?u = Some (clock _ (pred (clock_reads ?s))) =>
        rewrite T, C; reflexivity
    end.
  all:
    match goal with
    | Hfind : find _ _ = Some _ |- _ =>
        rewrite (find_one _ _ _ Hone Hfind); split; congruence
    | Hfind : find _ _ = None |- _ =>
        rewrite (find_filter_nil _ _ Hfind); congruence
    end.
Qed.

End VerifyStore.

(* ===================================================================== *)
(** ** The handlers at work *)
(* ===================================================================== *)

Section Examples.
Import Store Verify Checks Sample.

Lemma GET_session_and_user_only_after_checks_witness :
  checks_passed world good_request /\
  existsb is_jwt_verify (firstn 3 (events (call (GET world good_request) start))) = true.
Proof.
  apply (GET_session_and_user_only_after_checks world good_request start
           (firstn 3 (events (call (GET world good_request) start)))
           (skipn 4 (events (call (GET world good_request) start)))
           (call_findOne "tenant_acme" (VStr "a@x.com"))).
  - vm_compute. reflexivity.
  - right. reflexivity.
Defined.

Lemma GET_tenant_mismatch_witness :
  answer (call (GET world other_tenant) start)
    = Resolved (NextResponse_redirect "https://liveplus.pro/?error=invalid-tenant") /\
  none is_db_call (events (call (GET world other_tenant) start)) = true /\
  final_state (call (GET world other_tenant) start) = start.
Proof.
  apply (GET_tenant_mismatch world other_tenant start payload (VStr "acme"));
    reflexivity.
Defined.

Lemma GET_bad_token_redirects_witness :
  answer (call (GET world token_missing) start)
    = Resolved (NextResponse_redirect "https://liveplus.pro/?error=invalid-token") /\
  none is_db_call (events (call (GET world token_missing) start)) = true /\
  final_state (call (GET world token_missing) start) = start.
Proof.
  apply (GET_bad_token_redirects world token_missing start).
  left. reflexivity.
Defined.

Lemma GET_success_one_user_record_witness :
  exists u,
    filter (has_email (VStr "a@x.com"))
      (users (final_state (call (GET world good_request) returning)) "tenant_acme")
      = [u] /\
    lastLoginAt u = Some (today_at 0) /\
    _id u = "id-0" /\
    length (users (final_state (call (GET world good_request) returning)) "tenant_acme")
      = 1.
Proof.
  apply (GET_success_one_user_record world good_request returning payload
           (VStr "a@x.com") (VStr "acme") "tenant_acme").
  - split; [eexists; reflexivity | reflexivity].
  - reflexivity.
  - reflexivity.
  - reflexivity.
  - reflexivity.
  - simpl. repeat constructor. simpl. tauto.
  - simpl. lia.
Defined.

Lemma GET_always_redirects_witness :
  exists url,
    answer (call (GET world other_tenant) start) = Resolved (NextResponse_redirect url).
Proof.
  apply (GET_always_redirects world other_tenant start). reflexivity.
Defined.


Lemma GET_secrets_and_domain_witness :
  exists segment,
    answer (call (GET world good_request) start)
      = Resolved (NextResponse_redirect
          ("https://app.liveplus.pro" +++ "/" +++ segment +++ "/financeiro")).
Proof.
  apply (GET_secrets_and_domain world good_request start).
  split; [eexists; reflexivity | reflexivity].
Defined.

(** With neither secret in the environment the handler is at work all the
    same: it verifies the token with [your-secret-key], signs the session
    with [your-jwt-secret], and redirects to the hard-coded domain. *)
Lemma GET_runs_on_fallback_secrets :
  env world_without_env "EMAIL_SECRET" = None /\
  env world_without_env "JWT_SECRET" = None /\
  In (call_jwt_verify (Some "good") "your-secret-key")
    (events (call (GET world_without_env good_request) start)) /\
  (exists claims,
     In (call_SignJWT_sign claims "your-jwt-secret")
       (events (call (GET world_without_env good_request) start))) /\
  answer (call (GET world_without_env good_request) start)
    = Resolved (NextResponse_redirect "https://app.liveplus.pro/acme/financeiro").
Proof.
  split; [reflexivity |]. split; [reflexivity |].
  split; [vm_compute; tauto |].
  split; [| reflexivity].
  eexists. vm_compute. do 7 right. left. reflexivity.
Qed.

(** With no base URL in the environment the server-error page is no
    address: when [getTenantModel] throws, the outer [catch] runs, the
    redirect it answers with cannot be built, and the handler rejects with
    the [TypeError] of [new URL]. *)
Lemma GET_rejects_without_base_url :
  env world_without_model "NEXT_PUBLIC_APP_URL" = None /\
  events (call (GET world_without_model good_request) start)
    = [call_jwt_verify (Some "good") "your-secret-key";
       call_connectDB (VStr "acme");
       call_getTenantModel "tenant_acme" "User";
       console_error "Verification error:"] /\
  answer (call (GET world_without_model good_request) start)
    = Rejected (TypeError "Invalid URL").
Proof. repeat split; reflexivity. Qed.


(** With no base URL in the environment the invalid-tenant page is no
    address: a verified token for another tenant makes the handler reject,
    the redirect of line 120 and then the one of the outer [catch] failing
    to be built. *)
Lemma GET_tenant_mismatch_rejects_without_base_url :
  env world_without_env "NEXT_PUBLIC_APP_URL" = None /\
  jwt_verify world_without_env (token_param other_tenant)
    (EMAIL_SECRET world_without_env) = inr payload /\
  get payload "tenant" = inr (VStr "acme") /\
  tenant_param other_tenant = Some "other" /\
  events (call (GET world_without_env other_tenant) start)
    = [call_jwt_verify (Some "good") "your-secret-key";
       console_error "Tenant mismatch:";
       console_error "Verification error:"] /\
  answer (call (GET world_without_env other_tenant) start)
    = Rejected (TypeError "Invalid URL").
Proof. repeat split; reflexivity. Qed.

(** With no base URL in the environment the invalid-token page is no
    address: a request with no token makes the handler reject. *)
Lemma GET_missing_token_rejects_without_base_url :
  env world_without_env "NEXT_PUBLIC_APP_URL" = None /\
  token_param token_missing = None /\
  events (call (GET world_without_env token_missing) start)
    = [console_error "No token provided"; console_error "Verification error:"] /\
  answer (call (GET world_without_env token_missing) start)
    = Rejected (TypeError "Invalid URL").
Proof. repeat split; reflexivity. Qed.

(** A first verification in a new tenant creates the one user, as owner. *)
Lemma GET_first_user :
  map (fun u => (_id u, email u, role u))
    (users (final_state (call (GET world good_request) start)) "tenant_acme")
    = [("id-0", VStr "a@x.com", VStr "owner")].
Proof. reflexivity. Qed.

End Examples.

(* ===================================================================== *)
(** ** The lead-submission handler: every exit *)
(* ===================================================================== *)

Section LeadExits.
Import Lead Format LeadChecks.

(** X1. Whatever the request, and whatever the collaborators do, every one
    that fails throwing an [Error] (an object with a message and a name, as
    [World] has it), the lead-submission handler answers a JSON response,
    never rejects and never redirects, and its status is 200, 403 or
    500. *)
Theorem POST_always_answers_json (w : World) (request : Request) (s : state) :
  exists body status,
    answer (call (POST w request) s) = Resolved (NextResponse_json body status) /\
    (status = 200 \/ status = 403 \/ status = 500)%Z.
Proof.
  pattern (call (POST w request) s). apply wp_call. unfold POST.
  wp_run.
  all: cbv [answer events settle fst snd]; do 2 eexists; split; [reflexivity | tauto].
Qed.

(** X2. A 200 answer is given only after the row was appended: the handler
    built the client, read the spreadsheet, which answered, offered the one
    row with the date of the clock, which the spreadsheet took, and made no
    other call; the body is the message Success. *)
Theorem POST_success_means_appended (w : World) (request : Request) (s : state)
  (body : list (string * string)) :
  answer (call (POST w request) s) = Resolved (NextResponse_json body 200) ->
  exists c name email phone plan status,
    let row := [name; email; phone; plan;
                VStr (formattedDate (clock w (clock_reads s)))] in
    events (call (POST w request) s)
      = [call_GoogleAuth c ["https://www.googleapis.com/auth/spreadsheets"];
         call_spreadsheets_get (env w "GOOGLE_SHEETS_ID");
         call_spreadsheets_values_append (env w "GOOGLE_SHEETS_ID") "A:E"
           "USER_ENTERED" [row];
         console_log "Append response:"] /\
    spreadsheets_get w (env w "GOOGLE_SHEETS_ID") = None /\
    spreadsheets_values_append w (env w "GOOGLE_SHEETS_ID") "A:E" "USER_ENTERED" [row]
      = inr status /\
    body = [("message", "Success")].
Proof.
  pattern (call (POST w request) s). apply wp_call. unfold POST.
  wp_run.
  all: cbv [answer events settle fst snd].
  all: intros Hanswer; try discriminate Hanswer.
  all: injection Hanswer as <-; subst.
  all: do 6 eexists; cbv zeta.
  all: split; [reflexivity | split; [assumption | split; [eassumption | reflexivity]]].
Qed.

(** X3. Every call the handler makes to the spreadsheet service is made
    with the configuration: the client with the service-account
    credentials of the environment, the private key with its escaped line
    feeds replaced; the read and the append on the configured sheet; the
    append on range A:E, as user-entered input, with one row of five cells.
    A call is made only when the three variables are set and not empty;
    the append comes only after the read, and at most once. *)
Theorem POST_calls_are_configured (w : World) (request : Request) (s : state) :
  let trace := events (call (POST w request) s) in
  Forall (sheet_call_ok w) trace /\
  (existsb is_external_call trace = true -> sheet_configured w) /\
  only_after is_sheet_read is_append trace = true /\
  length (filter is_append trace) <= 1.
Proof.
  cbv zeta.
  pattern (call (POST w request) s). apply wp_call. unfold POST.
  wp_run.
  all: cbv [answer events settle fst snd].
  all: split; [| split; [| split; [reflexivity | simpl; lia]]].
  all: try (simpl; intros; discriminate).
  all: try (simpl app;
            repeat first [apply Forall_cons | apply Forall_nil];
            cbn [sheet_call_ok type private_key client_email];
            auto; repeat split;
            first [ reflexivity
                  | eexists; split; [eassumption | reflexivity]
                  | eexists; split; reflexivity ]).
  all: intros _;
    match goal with
    | H : (_ || _ || _)%bool = false |- _ =>
        apply orb_false_iff in H; destruct H as [H ?];
        apply orb_false_iff in H; destruct H as [? ?];
        unfold sheet_configured;
        repeat split; apply negb_false_iff; assumption
    end.
Qed.

(** X4. When the spreadsheet cannot be read (line 28 throws), the handler
    answers 403 with its fixed message, which says nothing of the error; it
    logs the failure, appends nothing and does not read the clock. *)
Theorem POST_spreadsheet_unreachable_403 (w : World) (request : Request) (s : state)
  (body name email phone plan : jsval) (e : error) :
  json request = inr body ->
  destructure body = inr (name, email, phone, plan) ->
  sheet_configured w ->
  (forall c scopes, GoogleAuth w c scopes = None) ->
  spreadsheets_get w (env w "GOOGLE_SHEETS_ID") = Some e ->
  answer (call (POST w request) s)
    = Resolved (NextResponse_json
        [("message",
          "Failed to access spreadsheet. Please verify permissions and spreadsheet ID.")]
        403) /\
  none is_append (events (call (POST w request) s)) = true /\
  In (console_error "Failed to access spreadsheet:") (events (call (POST w request) s)) /\
  final_state (call (POST w request) s) = s.
Proof.
  intros Hbody Hfields (H1 & H2 & H3) Hauth Hget.
  destruct (configured_env_check w H1 H2 H3) as [Hcheck [k Hk]].
  unfold POST, unescaped_private_key, new_GoogleAuth, sheets_spreadsheets_get.
  unfold answer, events, final_state, call, settle, try_catch, bind, when, lift,
    lift_unit, emit, ret, throw, return_.
  rewrite Hbody, Hfields, Hcheck, Hk. simpl.
  rewrite Hauth. simpl. rewrite Hget. simpl.
  repeat split; auto.
Qed.

(** X5. A body that cannot be read, or that cannot be destructured, is
    answered 500 with the message and the name of the error thrown, after
    one log line, with no call made and nothing changed, whatever the
    configuration. *)
Theorem POST_unreadable_body_500 (w : World) (request : Request) (s : state)
  (e : error) :
  json request = inl e \/
  (exists body, json request = inr body /\ destructure body = inl e) ->
  call (POST w request) s
    = (Resolved (NextResponse_json
         [("message", "Internal server error"); ("error", message e);
          ("type", JS.name e)] 500),
       s, [console_error "Detailed error:"]).
Proof.
  intros [H | [body [H Hd]]].
  all: unfold POST, call, settle, try_catch, bind, lift, emit, return_, throw, ret.
  all: rewrite H; simpl; try rewrite Hd; reflexivity.
Qed.

(** X6. The destructuring of line 7 fails exactly on [null] and
    [undefined]: every other body, object or not, gives the four fields. *)
Theorem destructure_fails_iff_nullish (body : jsval) :
  (exists e, destructure body = inl e) <-> body = VNull \/ body = VUndefined.
Proof.
  split.
  - intros [e He].
    destruct body; auto; exfalso.
    all: match type of He with
         | destructure ?b = _ =>
             destruct (destructure_total b) as (? & ? & ? & ? & Hd & _);
               [discriminate | discriminate | congruence]
         end.
  - intros [-> | ->]; eexists; reflexivity.
Qed.

(** X7. A variable of lines 9 to 11 that is set to the empty string counts
    as missing, like one that is unset: the handler answers 500 with the
    error Missing required environment variables, after one log line, with
    no call made and nothing changed. *)
Theorem POST_unset_or_empty_variable_500 (w : World) (request : Request) (s : state)
  (body name email phone plan : jsval) :
  json request = inr body ->
  destructure body = inr (name, email, phone, plan) ->
  nonempty (env w "GOOGLE_SHEETS_ID") = false \/
  nonempty (env w "GOOGLE_SHEETS_CLIENT_EMAIL") = false \/
  nonempty (env w "GOOGLE_SHEETS_PRIVATE_KEY") = false ->
  call (POST w request) s
    = (Resolved (NextResponse_json
         [("message", "Internal server error");
          ("error", "Missing required environment variables");
          ("type", "Error")] 500),
       s, [console_error "Detailed error:"]).
Proof.
  intros Hbody Hfields Henv.
  assert (Hcheck :
    (negb (nonempty (env w "GOOGLE_SHEETS_ID")) ||
     negb (nonempty (env w "GOOGLE_SHEETS_CLIENT_EMAIL")) ||
     negb (nonempty (env w "GOOGLE_SHEETS_PRIVATE_KEY")))%bool = true).
  { destruct Henv as [H | [H | H]]; rewrite H; simpl;
      rewrite ?orb_true_r; reflexivity. }
  unfold POST, call, settle, try_catch, bind, when, lift, emit, return_, throw, ret.
  rewrite Hbody, Hfields, Hcheck. reflexivity.
Qed.

(** X8. A body that is JSON but no object (a boolean, a number, a string,
    an array) is not refused: the row offered to the spreadsheet has four
    [undefined] cells and the date. *)
Theorem POST_body_not_an_object (w : World) (request : Request) (s : state)
  (body : jsval) :
  json request = inr body ->
  match body with
  | VBool _ | VNum _ | VStr _ | VArr _ _ => True
  | _ => False
  end ->
  sheet_configured w ->
  (forall c scopes, GoogleAuth w c scopes = None) ->
  spreadsheets_get w (env w "GOOGLE_SHEETS_ID") = None ->
  flat_map appended_rows (events (call (POST w request) s))
    = [[VUndefined; VUndefined; VUndefined; VUndefined;
        VStr (formattedDate (clock w (clock_reads s)))]].
Proof.
  intros Hbody Hshape (H1 & H2 & H3) Hauth Hget.
  apply (POST_reaches_append w request s body VUndefined VUndefined VUndefined
           VUndefined Hbody); try assumption.
  destruct body; try contradiction; reflexivity.
Qed.

(** X9. When the client of the spreadsheet service cannot be built (line 15
    throws), the handler answers 500 with the message and the name of that
    error, and sends no request to the spreadsheet. *)
Theorem POST_client_construction_fails_500 (w : World) (request : Request) (s : state)
  (body name email phone plan : jsval) (e : error) :
  json request = inr body ->
  destructure body = inr (name, email, phone, plan) ->
  sheet_configured w ->
  (forall c scopes, GoogleAuth w c scopes = Some e) ->
  answer (call (POST w request) s)
    = Resolved (NextResponse_json
        [("message", "Internal server error"); ("error", message e);
         ("type", JS.name e)] 500) /\
  none is_sheet_read (events (call (POST w request) s)) = true /\
  none is_append (events (call (POST w request) s)) = true.
Proof.
  intros Hbody Hfields (H1 & H2 & H3) Hauth.
  destruct (configured_env_check w H1 H2 H3) as [Hcheck [k Hk]].
  unfold POST, unescaped_private_key, new_GoogleAuth.
  unfold answer, events, call, settle, try_catch, bind, when, lift,
    lift_unit, emit, ret, throw, return_.
  rewrite Hbody, Hfields, Hcheck, Hk. simpl.
  rewrite Hauth. simpl. auto.
Qed.

End LeadExits.

(* ===================================================================== *)
(** ** The private key and the date *)
(* ===================================================================== *)

Section KeyProperties.
Import Escapes.

Lemma string_length_ind (P : string -> Prop) :
  (forall s, (forall t, String.length t < String.length s -> P t) -> P s) ->
  forall s, P s.
Proof.
  intros H s.
  assert (G : forall n t, String.length t < n -> P t).
  { induction n as [| n IH]; intros t Ht; [lia |].
    apply H. intros u Hu. apply IH. lia. }
  apply (G (S (String.length s))). lia.
Qed.

Lemma replace_backslash_n_step (c1 c2 : ascii) (rest : string) :
  replace_backslash_n (String c1 (String c2 rest))
    = if (Ascii.eqb c1 "\" && Ascii.eqb c2 "n")%bool
      then String (ascii_of_nat 10) (replace_backslash_n rest)
      else String c1 (replace_backslash_n (String c2 rest)).
Proof. reflexivity. Qed.

Lemma has_escaped_line_feed_step (c1 c2 : ascii) (rest : string) :
  has_escaped_line_feed (String c1 (String c2 rest))
    = ((Ascii.eqb c1 "\" && Ascii.eqb c2 "n")
       || has_escaped_line_feed (String c2 rest))%bool.
Proof. reflexivity. Qed.

Lemma has_escaped_line_feed_cons (c : ascii) (t : string) :
  has_escaped_line_feed (String c t)
    = match t with
      | String d _ => ((Ascii.eqb c "\" && Ascii.eqb d "n") || has_escaped_line_feed t)%bool
      | EmptyString => false
      end.
Proof. destruct t; reflexivity. Qed.

(** The first character of the result is a line feed or the first
    character of the key. *)
Lemma replace_backslash_n_head (s : string) :
  match replace_backslash_n s with
  | String c _ =>
      c = ascii_of_nat 10 \/ exists rest, s = String c rest
  | EmptyString => s = EmptyString
  end.
Proof.
  destruct s as [| c1 [| c2 rest]]; simpl; eauto.
  destruct (Ascii.eqb c1 "\" && Ascii.eqb c2 "n")%bool; eauto.
Qed.

Lemma replace_backslash_n_clean (s : string) :
  has_escaped_line_feed (replace_backslash_n s) = false.
Proof.
  induction s as [s IH] using string_length_ind.
  destruct s as [| c1 [| c2 rest]]; [reflexivity | reflexivity |].
  rewrite replace_backslash_n_step.
  destruct (Ascii.eqb c1 "\" && Ascii.eqb c2 "n")%bool eqn:E.
  - rewrite has_escaped_line_feed_cons.
    rewrite (IH rest) by (simpl; lia).
    destruct (replace_backslash_n rest); reflexivity.
  - rewrite has_escaped_line_feed_cons.
    rewrite (IH (String c2 rest)) by (simpl; lia).
    pose proof (replace_backslash_n_head (String c2 rest)) as Hh.
    destruct (replace_backslash_n (String c2 rest)) as [| d r]; [reflexivity |].
    rewrite orb_false_r.
    destruct Hh as [-> | [rest' Hs]].
    + rewrite andb_false_r. reflexivity.
    + injection Hs as -> _. exact E.
Qed.

Lemma replace_backslash_n_length (s : string) :
  String.length (replace_backslash_n s) <= String.length s /\
  (has_escaped_line_feed s = true ->
   String.length (replace_backslash_n s) < String.length s).
Proof.
  induction s as [s IH] using string_length_ind.
  destruct s as [| c1 [| c2 rest]]; [simpl; split; [lia | discriminate] ..|].
  rewrite replace_backslash_n_step, has_escaped_line_feed_step.
  destruct (Ascii.eqb c1 "\" && Ascii.eqb c2 "n")%bool eqn:E.
  - destruct (IH rest) as [Hle _]; [simpl; lia |].
    cbn [String.length]. split; [lia | intros _; lia].
  - destruct (IH (String c2 rest)) as [Hle Hlt]; [simpl; lia |].
    cbn [String.length] in *. split; [lia |].
    rewrite orb_false_l. intros H. apply Hlt in H. lia.
Qed.

Lemma replace_backslash_n_fixed (s : string) :
  has_escaped_line_feed s = false -> replace_backslash_n s = s.
Proof.
  induction s as [s IH] using string_length_ind.
  destruct s as [| c1 [| c2 rest]]; [reflexivity | reflexivity |].
  rewrite replace_backslash_n_step, has_escaped_line_feed_step.
  intros H. apply orb_false_iff in H. destruct H as [E H].
  rewrite E. rewrite (IH (String c2 rest)); [reflexivity | simpl; lia | exact H].
Qed.

(** X10. The replacement of line 18 leaves no backslash followed by [n] in
    the key, so that replacing a second time changes nothing. *)
Theorem replace_backslash_n_idempotent (s : string) :
  has_escaped_line_feed (replace_backslash_n s) = false /\
  replace_backslash_n (replace_backslash_n s) = replace_backslash_n s.
Proof.
  split; [apply replace_backslash_n_clean |].
  apply replace_backslash_n_fixed, replace_backslash_n_clean.
Qed.

(** X11. The replacement of line 18 leaves a key as it is exactly when the
    key holds no backslash followed by [n]; otherwise the result is
    shorter. *)
Theorem replace_backslash_n_unchanged_iff (s : string) :
  (replace_backslash_n s = s <-> has_escaped_line_feed s = false) /\
  String.length (replace_backslash_n s) <= String.length s.
Proof.
  split; [| apply replace_backslash_n_length].
  split; [| apply replace_backslash_n_fixed].
  intros H. destruct (has_escaped_line_feed s) eqn:E; [| reflexivity].
  destruct (replace_backslash_n_length s) as [_ Hlt].
  specialize (Hlt E). rewrite H in Hlt. lia.
Qed.

End KeyProperties.

Section DateProperties.
Import Lead Format.

Lemma digit_inj (a b : Z) :
  (0 <= a <= 9)%Z -> (0 <= b <= 9)%Z -> digit a = digit b -> a = b.
Proof.
  intros Ha Hb H. unfold digit in H.
  apply (f_equal nat_of_ascii) in H.
  rewrite !nat_ascii_embedding in H by lia.
  lia.
Qed.

Lemma digit_mod_inj (a b : Z) :
  digit (a mod 10) = digit (b mod 10) -> (a mod 10 = b mod 10)%Z.
Proof.
  apply digit_inj.
  - pose proof (Z.mod_pos_bound a 10). lia.
  - pose proof (Z.mod_pos_bound b 10). lia.
Qed.

Lemma digits_2_inj (a b : Z) :
  (0 <= a <= 99)%Z -> (0 <= b <= 99)%Z -> digits 2 a = digits 2 b -> a = b.
Proof.
  intros Ha Hb H. cbn [digits append] in H.
  injection H as H1 H0.
  apply digit_mod_inj in H1, H0.
  revert H1 H0. Z.div_mod_to_equations. lia.
Qed.

Lemma digits_4_inj (a b : Z) :
  (0 <= a <= 9999)%Z -> (0 <= b <= 9999)%Z -> digits 4 a = digits 4 b -> a = b.
Proof.
  intros Ha Hb H. cbn [digits append] in H.
  injection H as H3 H2 H1 H0.
  apply digit_mod_inj in H3, H2, H1, H0.
  revert H3 H2 H1 H0. Z.div_mod_to_equations. lia.
Qed.

(** X12. The date of line 41 tells the day: two calendar dates written
    alike have the same day, month and year. *)
Theorem formattedDate_injective (d1 d2 : Date) :
  calendar d1 -> calendar d2 ->
  formattedDate d1 = formattedDate d2 ->
  getDate d1 = getDate d2 /\ getMonth d1 = getMonth d2 /\
  getFullYear d1 = getFullYear d2.
Proof.
  intros C1 C2 H.
  rewrite !formattedDate_DD_MM_YYYY in H by assumption.
  destruct C1 as (Hd1 & Hm1 & Hy1), C2 as (Hd2 & Hm2 & Hy2).
  unfold DD_MM_YYYY in H.
  assert (Hday : digits 2 (getDate d1) = digits 2 (getDate d2) /\
                 digits 2 (getMonth d1 + 1) = digits 2 (getMonth d2 + 1) /\
                 digits 4 (getFullYear d1) = digits 4 (getFullYear d2)).
  { cbn [digits append] in H |- *. injection H. intros. repeat split; congruence. }
  destruct Hday as (Hday & Hmonth & Hyear).
  apply digits_2_inj in Hday; [| lia ..].
  apply digits_2_inj in Hmonth; [| lia ..].
  apply digits_4_inj in Hyear; [| lia ..].
  repeat split; lia.
Qed.

End DateProperties.

(* ===================================================================== *)
(** ** The verification handler: every exit *)
(* ===================================================================== *)

Lemma wp_lift_unit_Some (x : option error) e Q s :
  x = Some e -> Q (Throw e) s [] -> wp (lift_unit x) Q s.
Proof. intros ->. auto. Qed.

(** A step, with a failure that is already known. *)
Ltac wp_step_known :=
  lazymatch goal with
  | |- wp (lift_unit ?x) _ _ =>
      match goal with
      | H : x = Some _ |- _ => apply (wp_lift_unit_Some _ _ _ _ H); cbv beta iota zeta
      end
  end.

Ltac wp_run_known := repeat first [wp_step_known | wp_step].

(** Running the verification handler against a postcondition kept
    folded. *)
Ltac wp_run_call :=
  match goal with
  | |- ?P (call ?body ?s) =>
      let Post := fresh "Post" in
      set (Post := P); apply wp_call; unfold Verify.GET; wp_run; subst Post;
      cbv beta
  end.

Section VerifyExits.
Import Store Verify Checks Protocol.

(** X13. A request with no token, or an empty one, reaches no
    collaborator: the handler only logs, and changes nothing. *)
Theorem GET_without_token_calls_nothing (w : World) (request : Request) (s : state) :
  nonempty (token_param request) = false ->
  Forall (fun ev => is_console_error ev = true) (events (call (GET w request) s)) /\
  final_state (call (GET w request) s) = s.
Proof.
  intros Htoken.
  pattern (call (GET w request) s). apply wp_call. unfold GET.
  wp_run.
  all: cbv [answer events final_state settle fst snd].
  all: split; [repeat constructor | reflexivity].
Qed.

(** X14. When the token verifies and the handler settles on no tenant
    (none or an empty one in the address, none or an empty one in the
    token, the two being equal or not), it logs No tenant provided, makes
    no call to the database and none for a session, changes nothing, and
    redirects to the invalid-tenant page of the base URL when that page is
    an address. *)
Theorem GET_without_tenant (w : World) (request : Request) (s : state)
  (decoded token_tenant : jsval) :
  nonempty (token_param request) = true ->
  jwt_verify w (token_param request) (EMAIL_SECRET w) = inr decoded ->
  get decoded "tenant" = inr token_tenant ->
  truthy (adopted (of_param (tenant_param request)) token_tenant) = false ->
  let run := call (GET w request) s in
  In (console_error "No tenant provided") (events run) /\
  none is_db_call (events run) = true /\
  none is_session_call (events run) = true /\
  final_state run = s /\
  (URL_parses w (error_page w "invalid-tenant") = true ->
   answer run = Resolved (NextResponse_redirect (error_page w "invalid-tenant"))).
Proof.
  intros Htoken Hverify Htenant Hnone run. subst run.
  unfold adopted in Hnone.
  destruct (truthy (of_param (tenant_param request))) eqn:Hu;
    destruct (truthy token_tenant) eqn:Ht; simpl in Hnone;
    try congruence.
  all: pattern (call (GET w request) s); apply wp_call; unfold GET.
  all: wp_run.
  all: cbv [answer events final_state settle fst snd].
  all: repeat split; try reflexivity; simpl; try tauto; try congruence.
Qed.

(** X28. The tenant of the address is compared with the tenant claim by
    [!==]: a claim that is not a string (a number, a boolean, an object,
    [null], or no claim at all) never matches a tenant given in the
    address, even one written alike.  The handler logs Tenant mismatch,
    makes no call to the database and none for a session, changes nothing,
    and redirects to the invalid-tenant page of the base URL when that page
    is an address. *)
Theorem GET_tenant_claim_not_a_string (w : World) (request : Request) (s : state)
  (decoded token_tenant : jsval) (tenant : string) :
  nonempty (token_param request) = true ->
  jwt_verify w (token_param request) (EMAIL_SECRET w) = inr decoded ->
  get decoded "tenant" = inr token_tenant ->
  tenant_param request = Some tenant ->
  tenant <> "" ->
  (forall t, token_tenant <> VStr t) ->
  let run := call (GET w request) s in
  In (console_error "Tenant mismatch:") (events run) /\
  none is_db_call (events run) = true /\
  none is_session_call (events run) = true /\
  final_state run = s /\
  (URL_parses w (error_page w "invalid-tenant") = true ->
   answer run = Resolved (NextResponse_redirect (error_page w "invalid-tenant"))).
Proof.
  intros Htoken Hverify Htenant Hparam Hne Hkind run. subst run.
  assert (Hu : truthy (of_param (tenant_param request)) = true).
  { rewrite Hparam. simpl.
    destruct (String.eqb_spec tenant ""); [contradiction | reflexivity]. }
  assert (Hdiffer : strict_eq (of_param (tenant_param request)) token_tenant = false).
  { rewrite Hparam. destruct token_tenant; try reflexivity.
    exfalso. apply (Hkind s0). reflexivity. }
  pattern (call (GET w request) s); apply wp_call; unfold GET.
  wp_run.
  all: cbv [answer events final_state settle fst snd].
  all: repeat split; try reflexivity; simpl; try tauto; try congruence.
Qed.

(** X15. When the checks pass and the tenant's database cannot be reached
    (line 129 throws), the handler makes no other call after [connectDB],
    changes nothing, and redirects to the database-error page under the
    tenant's address on the external domain, when that page is an
    address. *)
Theorem GET_database_unreachable (w : World) (request : Request) (s : state)
  (decoded token_tenant : jsval) (segment : string) (e : error) :
  let tenant := adopted (of_param (tenant_param request)) token_tenant in
  nonempty (token_param request) = true ->
  jwt_verify w (token_param request) (EMAIL_SECRET w) = inr decoded ->
  get decoded "tenant" = inr token_tenant ->
  truthy tenant = true ->
  strict_eq tenant token_tenant = true ->
  toString tenant = Some segment ->
  connectDB w tenant = inl e ->
  let run := call (GET w request) s in
  events run
    = [call_jwt_verify (token_param request) (EMAIL_SECRET w)] ++
      (if truthy (of_param (tenant_param request)) then []
       else [console_log "Retrieved tenant from token:"]) ++
      [call_connectDB tenant; console_error "Database connection failed:"] ++
      (if URL_parses w (tenant_page (tenantUrl segment) "database-error") then []
       else [console_error "Verification error:"]) /\
  final_state run = s /\
  (URL_parses w (tenant_page (tenantUrl segment) "database-error") = true ->
   answer run
     = Resolved (NextResponse_redirect
         (tenant_page (tenantUrl segment) "database-error"))).
Proof.
  intros tenant Htoken Hverify Htenant Htruthy Hsame Hsegment Hconnect run.
  subst run tenant.
  unfold adopted in *.
  destruct (truthy (of_param (tenant_param request))) eqn:Hu;
    destruct (truthy token_tenant) eqn:Ht; simpl in *;
    try congruence.
  all: unfold tenantUrl.
  all: pattern (call (GET w request) s); apply wp_call; unfold GET.
  all: wp_run_known.
  all: cbv [answer events final_state settle fst snd].
  all: try congruence.
  all: match goal with
       | H : toString _ = Some ?b |- _ =>
           assert (b = segment) by congruence; subst b
       end.
  all: repeat match goal with
              | H : URL_parses _ _ = _ |- _ => rewrite H
              end.
  all: repeat split; try reflexivity; try congruence.
Qed.

(** X16. When the checks pass, the database is reached and the tenant's
    [User] model cannot be had (line 135 throws, outside every inner
    [try]), the outer [catch] runs: no user is looked up or saved, no
    session is issued, nothing changes, and the handler redirects to the
    server-error page of the base URL, or rejects when that page is no
    address. *)
Theorem GET_model_unavailable (w : World) (request : Request) (s : state)
  (decoded token_tenant : jsval) (segment db : string) (e : error) :
  let tenant := adopted (of_param (tenant_param request)) token_tenant in
  nonempty (token_param request) = true ->
  jwt_verify w (token_param request) (EMAIL_SECRET w) = inr decoded ->
  get decoded "tenant" = inr token_tenant ->
  truthy tenant = true ->
  strict_eq tenant token_tenant = true ->
  toString tenant = Some segment ->
  connectDB w tenant = inr db ->
  getTenantModel w db "User" = Some e ->
  let run := call (GET w request) s in
  In (console_error "Verification error:") (events run) /\
  none is_user_call (events run) = true /\
  none is_session_call (events run) = true /\
  final_state run = s /\
  answer run
    = if URL_parses w (error_page w "server-error")
      then Resolved (NextResponse_redirect (error_page w "server-error"))
      else Rejected (TypeError "Invalid URL").
Proof.
  intros tenant Htoken Hverify Htenant Htruthy Hsame Hsegment Hconnect Hmodel run.
  subst run tenant.
  unfold adopted in *.
  destruct (truthy (of_param (tenant_param request))) eqn:Hu;
    destruct (truthy token_tenant) eqn:Ht; simpl in *;
    try congruence.
  all: pattern (call (GET w request) s); apply wp_call; unfold GET.
  all: wp_run_known.
  all: cbv [answer events final_state settle fst snd].
  all: try congruence.
  all: repeat match goal with
              | H : URL_parses _ _ = _ |- _ => rewrite H
              end.
  all: repeat split; try reflexivity; simpl; tauto.
Qed.

Lemma stops_at_error_split (l : list event) :
  stops_at_error l = true ->
  forall pre ev post,
    l = pre ++ ev :: post -> is_console_error ev = true ->
    none is_call post = true.
Proof.
  induction l as [| x l IH]; intros H pre ev post Hl Hev.
  - destruct pre; discriminate.
  - simpl in H.
    destruct pre as [| y pre]; simpl in Hl; injection Hl as -> ->.
    + rewrite Hev in H. exact H.
    + destruct (is_console_error y) eqn:Ey.
      * unfold none in *. rewrite forallb_app in H.
        apply andb_true_iff in H. destruct H as [_ H].
        simpl in H. apply andb_true_iff in H. tauto.
      * eapply IH; eauto.
Qed.

Lemma collaborator_eqb_eq (a b : collaborator) :
  collaborator_eqb a b = true -> a = b.
Proof. destruct a, b; simpl; congruence. Qed.

Lemma begins_with_firstn (l long : list collaborator) :
  begins_with l long = true -> exists k, l = firstn k long.
Proof.
  revert long. induction l as [| c l IH]; intros long H.
  - exists 0. reflexivity.
  - destruct long as [| d long]; [discriminate |].
    simpl in H. apply andb_true_iff in H. destruct H as [Hc H].
    apply collaborator_eqb_eq in Hc. subst d.
    destruct (IH long H) as [k Hk].
    exists (S k). simpl. congruence.
Qed.

(** Whatever the request and the collaborators, the calls of a run follow
    the script and none follows an error. *)
Lemma GET_disciplined (w : World) (request : Request) (s : state) :
  disciplined (events (call (GET w request) s)) = true.
Proof.
  pattern (call (GET w request) s). apply wp_call. unfold GET.
  wp_run.
  all: cbv [answer events settle fst snd].
  all: reflexivity.
Qed.

(** X17. The calls of every run are an initial part of one sequence:
    verify the token, connect to the database, get the model, find the
    user, save once or twice, sign the session, get the cookie store, set
    the cookie.  No collaborator is called out of turn, and none is called
    again. *)
Theorem GET_calls_follow_the_script (w : World) (request : Request) (s : state) :
  exists saves k,
    (saves = 1 \/ saves = 2) /\
    callees (events (call (GET w request) s)) = firstn k (script saves).
Proof.
  pose proof (GET_disciplined w request s) as H.
  unfold disciplined in H.
  apply andb_true_iff in H. destruct H as [H _].
  apply orb_true_iff in H.
  destruct H as [H | H]; apply begins_with_firstn in H; destruct H as [k Hk].
  - exists 1, k. auto.
  - exists 2, k. auto.
Qed.

(** X18. Once the handler has logged an error it calls no collaborator any
    more: whatever follows the first error in a run is a log line. *)
Theorem GET_stops_at_first_error (w : World) (request : Request) (s : state)
  (pre post : list event) (ev : event) :
  events (call (GET w request) s) = pre ++ ev :: post ->
  is_console_error ev = true ->
  none is_call post = true.
Proof.
  intros Hsplit Hev.
  pose proof (GET_disciplined w request s) as H.
  unfold disciplined in H.
  apply andb_true_iff in H. destruct H as [_ H].
  eapply stops_at_error_split; eauto.
Qed.

(** The answers of a run, used in the goal. *)
Ltac use_answers :=
  repeat match goal with
         | H : jwt_verify _ _ _ = _ |- _ => rewrite H
         | H : get _ "tenant" = _ |- _ => rewrite H
         | H : truthy _ = _ |- _ => rewrite H
         | H : toString _ = _ |- _ => rewrite H
         end.

(** X19. Whenever the handler answers a redirect, its address is the one
    of the error logged: the server-error page of the base URL once the
    outer [catch] ran; else the invalid-token or the invalid-tenant page of
    the base URL; else the database-error, user-error or session-error page
    under the tenant's address on the external domain; and the tenant's
    address itself when no error was logged. *)
Theorem GET_failure_pages (w : World) (request : Request) (s : state) (url : string) :
  answer (call (GET w request) s) = Resolved (NextResponse_redirect url) ->
  url = page_for w (segment_of w request) (events (call (GET w request) s)).
Proof.
  pattern (call (GET w request) s). wp_run_call.
  all: cbv [answer events settle fst snd].
  all: intros Hanswer; try discriminate Hanswer.
  all: injection Hanswer as <-.
  all: cbv [page_for logged existsb orb String.eqb Ascii.eqb Bool.eqb app].
  all: try reflexivity.
  all: unfold segment_of, adopted; use_answers; cbn [negb andb]; use_answers.
  all: reflexivity.
Qed.

End VerifyExits.

(* ===================================================================== *)
(** ** The verification handler: the session and the tenant's store *)
(* ===================================================================== *)

Section VerifySession.
Import Store Verify Checks Session.

Lemma In_replace_by_id (u : TenantUser) (l : list TenantUser) :
  has_id (_id u) l = true -> In u (replace_by_id u l).
Proof.
  unfold has_id. induction l as [| x l IH]; simpl; [discriminate |].
  destruct (_id x =? _id u); simpl; auto.
Qed.

(** The document a [save] answers is in the collection. *)
Lemma persisted_In (w : World) (db : string) (d : Document) (s s' : state)
  (u : TenantUser) :
  persisted w db d s u s' -> In u (users s' db).
Proof.
  intros [_ [(_ & _ & ->) | (_ & Hid & ->)]]; rewrite users_with_users.
  - apply in_or_app. right. left. reflexivity.
  - apply In_replace_by_id. exact Hid.
Qed.

Lemma persisted_cookie_jar (w : World) (db : string) (d : Document) (s s' : state)
  (u : TenantUser) :
  persisted w db d s u s' -> cookie_jar s' = cookie_jar s.
Proof. intros [_ [(_ & _ & ->) | (_ & _ & ->)]]; reflexivity. Qed.

(** The cookies at the end of a run, from the steps that led there. *)
Ltac frame_cookies :=
  repeat match goal with
         | H : persisted _ _ _ _ _ _ |- _ => apply persisted_cookie_jar in H
         end;
  subst;
  cbn [cookie_jar count_db_call count_clock_read count_id with_cookie] in *;
  congruence.

(** X20. A request leaves the cookies as they were, or adds exactly one:
    [auth_token], http-only, secure, SameSite none, for seven days, on path
    [/] of [.liveplus.pro], whose value is the token that [sign] answered
    for the claims of this run under the session secret.  And a run in
    which no error was logged, a successful verification, has set it. *)
Theorem GET_cookie_is_the_signed_token (w : World) (request : Request) (s : state) :
  let run := call (GET w request) s in
  (cookie_jar (final_state run) = cookie_jar s \/ cookie_set_from w s run) /\
  (none is_console_error (events run) = true -> cookie_set_from w s run).
Proof.
  cbv zeta. pattern (call (GET w request) s). wp_run_call.
  all: cbv [cookie_set_from answer events final_state settle fst snd].
  all: split; [| cbn [app]; intros Hlog; try discriminate Hlog].
  all: try (left; frame_cookies).
  all: try right.
  all: do 2 eexists;
       (split; [| split; [eassumption | split; [| frame_cookies]]]);
       cbn [app In]; tauto.
Qed.

(** X21. Every session the handler signs is marked authenticated, carries
    the e-mail of the verified token, and names a record that is in a
    tenant collection when the handler returns: its identifier, tenant
    path and role are those of that record. *)
Theorem GET_session_names_stored_user (w : World) (request : Request) (s : state)
  (claims : SessionClaims) (secret : string) :
  In (call_SignJWT_sign claims secret) (events (call (GET w request) s)) ->
  authenticated claims = true /\
  (exists decoded,
     jwt_verify w (token_param request) (EMAIL_SECRET w) = inr decoded /\
     get decoded "email" = inr (claim_email claims)) /\
  exists db u,
    In u (users (final_state (call (GET w request) s)) db) /\
    userId claims = _id u /\
    claim_tenantPath claims = tenantPath u /\
    claim_role claims = role u.
Proof.
  pattern (call (GET w request) s). wp_run_call.
  all: cbv [answer events final_state settle fst snd].
  all: cbn [app In]; intros Hin.
  all: repeat (destruct Hin as [Hin | Hin]; [try discriminate Hin |]);
       try contradiction.
  all: injection Hin as <- _.
  all: cbn [authenticated claim_email userId claim_tenantPath claim_role fields].
  all: split; [reflexivity | split; [eexists; split; eassumption |]].
  all: match goal with
       | H : persisted _ ?db _ _ ?x _ |- context [_id ?x] =>
           apply persisted_In in H; exists db, x
       end.
  all: subst; cbn [users count_db_call count_clock_read count_id with_cookie] in *.
  all: repeat split; assumption.
Qed.

End VerifySession.

Section VerifyTenancy.
Import Store Verify Checks Tenancy.

Lemma persisted_users_elsewhere (w : World) (db : string) (d : Document)
  (s s' : state) (u : TenantUser) (other : string) :
  persisted w db d s u s' -> other <> db -> users s' other = users s other.
Proof.
  intros [_ [(_ & _ & ->) | (_ & _ & ->)]] Hne; simpl;
    destruct (String.eqb_spec other db); congruence.
Qed.

(** The database of a run is the tenant's, from the answers that led to
    it. *)
Ltac solve_tenant_database :=
  do 2 eexists;
  split; [eassumption |];
  split; [eassumption |];
  unfold adopted;
  repeat match goal with
         | H : truthy _ = _ |- _ => rewrite H
         end;
  cbn [negb andb];
  split; assumption.

(** X22. Every call made on a database (getting the model, finding a user,
    saving one) is made on the database that [connectDB] answered for the
    tenant the handler settled on, which is the tenant of the verified
    token. *)
Theorem GET_database_calls_stay_in_tenant (w : World) (request : Request) (s : state)
  (ev : event) (db : string) :
  In ev (events (call (GET w request) s)) ->
  database_of ev = Some db ->
  tenant_database w request db.
Proof.
  revert ev db.
  pattern (call (GET w request) s). wp_run_call.
  all: cbv [answer events final_state settle fst snd].
  all: cbn [app In]; intros ev db Hin Hdb.
  all: repeat (destruct Hin as [<- | Hin];
               [first [discriminate Hdb | injection Hdb as <-] |]);
       try contradiction.
  all: solve_tenant_database.
Qed.

(** X23. A verification leaves the users of every other database as they
    were: only the collection of the verified token's tenant can change. *)
Theorem GET_other_tenants_untouched (w : World) (request : Request) (s : state)
  (other : string) :
  ~ tenant_database w request other ->
  users (final_state (call (GET w request) s)) other = users s other.
Proof.
  pattern (call (GET w request) s). wp_run_call.
  all: cbv [answer events final_state settle fst snd].
  all: intros Hnot.
  all: try (subst; reflexivity).
  all: match goal with
       | H : persisted _ ?db _ _ _ _ |- _ =>
           assert (Hne : other <> db)
             by (intros ->; apply Hnot; solve_tenant_database)
       end.
  all: repeat match goal with
              | H : persisted _ _ _ _ _ _ |- _ =>
                  apply (fun p => persisted_users_elsewhere _ _ _ _ _ _ other p Hne) in H
              end.
  all: subst; cbn [users count_db_call count_clock_read count_id with_cookie] in *.
  all: congruence.
Qed.

End VerifyTenancy.

Section VerifyUsers.
Import Store Verify Checks.

(** What a [save] that went through answers: the document saved, with the
    role of the hook. *)
Lemma persisted_fields (w : World) (db : string) (d : Document) (s s' : state)
  (u : TenantUser) :
  persisted w db d s u s' ->
  _id u = _id (fields d) /\ email u = email (fields d) /\
  tenantPath u = tenantPath (fields d) /\ createdAt u = createdAt (fields d).
Proof. intros [-> _]. repeat split. Qed.

(** The answers of a run, brought to the tenant the checks settled on. *)
Ltac settle_tenant Hdb :=
  unfold adopted in Hdb |- *;
  repeat match goal with
         | H : truthy (of_param _) = _ |- _ => rewrite H in Hdb |- *
         | H : truthy ?t = _, G : get _ "tenant" = inr ?t |- _ => rewrite H in Hdb |- *
         end;
  cbn [negb andb] in Hdb |- *.

(** What the saves of a run carry, from the steps that led to them. *)
Ltac read_saves Hdb Hfind :=
  settle_tenant Hdb;
  match goal with
  | Hc : connectDB _ _ = inr ?a |- _ => rewrite Hdb in Hc; injection Hc as <-
  end;
  subst; cbn [users count_db_call count_clock_read count_id] in *;
  match goal with
  | H : find _ _ = _ |- _ => rewrite Hfind in H; try discriminate H
  end;
  try match goal with
      | H : Some _ = Some _ |- _ => injection H as <-
      end;
  repeat match goal with
         | H : persisted _ _ _ _ _ _ |- _ =>
             apply persisted_fields in H;
             cbn [fields isNew set_tenantPath set_lastLoginAt _id email
                  tenantPath createdAt] in H;
             destruct H as (? & ? & ? & ?)
         end;
  cbn [fields isNew set_tenantPath set_lastLoginAt _id email tenantPath
       createdAt ids_made clock_reads count_id count_clock_read count_db_call] in *.

(** X24. When the tenant already has a user of the token's e-mail, every
    document the handler saves is that user's: stored before, under the
    same identifier, with the same e-mail and creation date; and its tenant
    path is the stored one when there is one, the verified tenant
    otherwise.  A tenant path is filled in, never overwritten. *)
Theorem GET_returning_user_keeps_record (w : World) (request : Request) (s : state)
  (decoded query_email token_tenant : jsval) (db : string) (old : TenantUser)
  (target : string) (saved : Document) :
  let tenant := adopted (of_param (tenant_param request)) token_tenant in
  jwt_verify w (token_param request) (EMAIL_SECRET w) = inr decoded ->
  get decoded "email" = inr query_email ->
  get decoded "tenant" = inr token_tenant ->
  connectDB w tenant = inr db ->
  find (has_email query_email) (users s db) = Some old ->
  In (call_save target saved) (events (call (GET w request) s)) ->
  isNew saved = false /\
  _id (fields saved) = _id old /\
  email (fields saved) = email old /\
  createdAt (fields saved) = createdAt old /\
  tenantPath (fields saved)
    = if truthy (tenantPath old) then tenantPath old else tenant.
Proof.
  intros tenant Hverify Hemail Htenant Hdb Hfind. subst tenant.
  pattern (call (GET w request) s). wp_run_call.
  all: cbv [answer events final_state settle fst snd].
  all: cbn [app In]; intros Hin.
  all: repeat (destruct Hin as [Hin | Hin]; [try discriminate Hin |]);
       try contradiction.
  all: injection Hin as <- <-.
  all: read_saves Hdb Hfind.
  all: repeat match goal with
              | H : truthy (tenantPath _) = _ |- _ => rewrite H
              end.
  all: repeat split; congruence.
Qed.

(** X25. When the tenant has no user of the token's e-mail, every document
    the handler saves is the new user's: it has the next identifier, the
    e-mail of the token, the verified tenant as tenant path, and the first
    reading of the clock as creation date. *)
Theorem GET_new_user_record (w : World) (request : Request) (s : state)
  (decoded query_email token_tenant : jsval) (db : string)
  (target : string) (saved : Document) :
  let tenant := adopted (of_param (tenant_param request)) token_tenant in
  jwt_verify w (token_param request) (EMAIL_SECRET w) = inr decoded ->
  get decoded "email" = inr query_email ->
  get decoded "tenant" = inr token_tenant ->
  connectDB w tenant = inr db ->
  find (has_email query_email) (users s db) = None ->
  In (call_save target saved) (events (call (GET w request) s)) ->
  _id (fields saved) = new_ObjectId w (ids_made s) /\
  email (fields saved) = query_email /\
  tenantPath (fields saved) = tenant /\
  createdAt (fields saved) = Some (clock w (clock_reads s)).
Proof.
  intros tenant Hverify Hemail Htenant Hdb Hfind. subst tenant.
  pattern (call (GET w request) s). wp_run_call.
  all: cbv [answer events final_state settle fst snd].
  all: cbn [app In]; intros Hin.
  all: repeat (destruct Hin as [Hin | Hin]; [try discriminate Hin |]);
       try contradiction.
  all: injection Hin as <- <-.
  all: read_saves Hdb Hfind.
  all: repeat split; congruence.
Qed.

End VerifyUsers.

(* ===================================================================== *)
(** ** The landing page: properties *)
(* ===================================================================== *)

Section HeroProperties.
Import Floats Hero.
Local Open Scope float_scope.

Lemma ltb_leb (a b : float) : (a <? b) = true -> (a <=? b) = true.
Proof.
  rewrite ltb_spec, leb_spec. unfold SFltb, SFleb.
  destruct (SFcompare (Prim2SF a) (Prim2SF b)) as [[| |] |]; congruence.
Qed.

(** X26. Whatever the scroll position and the height of the window, any
    two numbers, the rotation [handleScroll] sets is never negative: it is
    [NaN] or at least zero. *)
Theorem handleScroll_never_negative (window : Window) :
  is_nan (handleScroll window) = true \/ (0 <=? handleScroll window) = true.
Proof.
  unfold handleScroll. cbv zeta.
  set (x := 25 - scrollY window / (innerHeight window * 0.5) * 25).
  unfold Math_max.
  destruct (is_nan 0 || is_nan x)%bool eqn:N; [left; reflexivity |].
  right.
  destruct (0 <? x) eqn:L; [apply ltb_leb; exact L |].
  destruct (x <? 0) eqn:G; reflexivity.
Qed.

(** X27. At the top of the page, in a window of positive height, the
    rotation [handleScroll] sets is the initial one, 25 degrees. *)
Theorem handleScroll_at_the_top (window : Window) :
  scrollY window = 0 ->
  (0 <? innerHeight window * 0.5) = true ->
  handleScroll window = initial_rotation.
Proof.
  intros Htop Hheight. unfold handleScroll. rewrite Htop.
  assert (Hzero : 0 / (innerHeight window * 0.5) = 0).
  { apply Prim2SF_inj. rewrite div_spec.
    rewrite ltb_spec in Hheight.
    destruct (Prim2SF (innerHeight window * 0.5)) as [[|] | [|] | | [|] m e];
      try discriminate Hheight; reflexivity. }
  cbv zeta. rewrite Hzero. reflexivity.
Qed.

(** X29. In a window of height zero the quotient of line 19 is a division
    by zero, which does not throw: at scroll position zero the rotation set
    is [NaN], and at any positive scroll position it is zero. *)
Theorem handleScroll_zero_height (window : Window) :
  innerHeight window = 0 ->
  (scrollY window = 0 -> is_nan (handleScroll window) = true) /\
  ((0 <? scrollY window) = true -> handleScroll window = 0).
Proof.
  intros Hheight. unfold handleScroll. rewrite Hheight. cbv zeta.
  split.
  - intros ->. reflexivity.
  - intros Hpos.
    assert (Hinf : scrollY window / (0 * 0.5) = infinity).
    { apply Prim2SF_inj. rewrite div_spec.
      rewrite ltb_spec in Hpos.
      destruct (Prim2SF (scrollY window)) as [[|] | [|] | | [|] m e];
        try discriminate Hpos; reflexivity. }
    rewrite Hinf. reflexivity.
Qed.

End HeroProperties.

(* ===================================================================== *)
(** ** More of the handlers at work *)
(* ===================================================================== *)

Section MoreExamples.
Import Store Verify Checks Sample Cases LeadChecks Protocol Session Tenancy.

Lemma POST_success_means_appended_witness :
  exists c name email phone plan status,
    events (call (Lead.POST world lead) start)
      = [call_GoogleAuth c ["https://www.googleapis.com/auth/spreadsheets"];
         call_spreadsheets_get (Some "sheet-1");
         call_spreadsheets_values_append (Some "sheet-1") "A:E" "USER_ENTERED"
           [[name; email; phone; plan; VStr "03/11/2026"]];
         console_log "Append response:"] /\
    spreadsheets_get world (Some "sheet-1") = None /\
    spreadsheets_values_append world (Some "sheet-1") "A:E" "USER_ENTERED"
      [[name; email; phone; plan; VStr "03/11/2026"]] = inr status /\
    [("message", "Success")] = [("message", "Success")].
Proof.
  apply (POST_success_means_appended world lead start [("message", "Success")]).
  reflexivity.
Defined.

Lemma POST_spreadsheet_unreachable_403_witness :
  answer (call (Lead.POST sheet_forbidden lead) start)
    = Resolved (NextResponse_json
        [("message",
          "Failed to access spreadsheet. Please verify permissions and spreadsheet ID.")]
        403) /\
  none is_append (events (call (Lead.POST sheet_forbidden lead) start)) = true /\
  In (console_error "Failed to access spreadsheet:")
    (events (call (Lead.POST sheet_forbidden lead) start)) /\
  final_state (call (Lead.POST sheet_forbidden lead) start) = start.
Proof.
  apply (POST_spreadsheet_unreachable_403 sheet_forbidden lead start
           (VObj 3 [("name", VStr "Ana"); ("email", VStr "ana@x.com");
                    ("phone", VStr "+55 11 99999-0000"); ("plan", VStr "pro")])
           (VStr "Ana") (VStr "ana@x.com") (VStr "+55 11 99999-0000") (VStr "pro")
           (Error_ "GaxiosError" "The caller does not have permission")).
  - reflexivity.
  - reflexivity.
  - repeat split.
  - intros c scopes. reflexivity.
  - reflexivity.
Defined.

Lemma POST_unreadable_body_500_witness :
  call (Lead.POST world unparseable) start
    = (Resolved (NextResponse_json
         [("message", "Internal server error");
          ("error", "Unexpected end of JSON input");
          ("type", "SyntaxError")] 500),
       start, [console_error "Detailed error:"]).
Proof.
  apply (POST_unreadable_body_500 world unparseable start
           (Error_ "SyntaxError" "Unexpected end of JSON input")).
  left. reflexivity.
Defined.

Lemma POST_unset_or_empty_variable_500_witness :
  call (Lead.POST world_blank_sheet_id lead) start
    = (Resolved (NextResponse_json
         [("message", "Internal server error");
          ("error", "Missing required environment variables");
          ("type", "Error")] 500),
       start, [console_error "Detailed error:"]).
Proof.
  apply (POST_unset_or_empty_variable_500 world_blank_sheet_id lead start
           (VObj 3 [("name", VStr "Ana"); ("email", VStr "ana@x.com");
                    ("phone", VStr "+55 11 99999-0000"); ("plan", VStr "pro")])
           (VStr "Ana") (VStr "ana@x.com") (VStr "+55 11 99999-0000") (VStr "pro")).
  - reflexivity.
  - reflexivity.
  - left. reflexivity.
Defined.

Lemma POST_body_not_an_object_witness :
  flat_map Lead.appended_rows (events (call (Lead.POST world scalar_lead) start))
    = [[VUndefined; VUndefined; VUndefined; VUndefined; VStr "03/11/2026"]].
Proof.
  apply (POST_body_not_an_object world scalar_lead start (VNum "42")).
  - reflexivity.
  - exact I.
  - repeat split.
  - intros c scopes. reflexivity.
  - reflexivity.
Defined.

Lemma POST_client_construction_fails_500_witness :
  answer (call (Lead.POST client_rejected lead) start)
    = Resolved (NextResponse_json
        [("message", "Internal server error");
         ("error", "The incoming JSON object does not contain a private_key field");
         ("type", "Error")] 500) /\
  none is_sheet_read (events (call (Lead.POST client_rejected lead) start)) = true /\
  none is_append (events (call (Lead.POST client_rejected lead) start)) = true.
Proof.
  apply (POST_client_construction_fails_500 client_rejected lead start
           (VObj 3 [("name", VStr "Ana"); ("email", VStr "ana@x.com");
                    ("phone", VStr "+55 11 99999-0000"); ("plan", VStr "pro")])
           (VStr "Ana") (VStr "ana@x.com") (VStr "+55 11 99999-0000") (VStr "pro")
           (Error "The incoming JSON object does not contain a private_key field")).
  - reflexivity.
  - reflexivity.
  - repeat split.
  - intros c scopes. reflexivity.
Defined.

Lemma formattedDate_injective_witness :
  getDate (today_at 0) = getDate (today_at 5) /\
  getMonth (today_at 0) = getMonth (today_at 5) /\
  getFullYear (today_at 0) = getFullYear (today_at 5).
Proof.
  apply (formattedDate_injective (today_at 0) (today_at 5)).
  - unfold Format.calendar. simpl. lia.
  - unfold Format.calendar. simpl. lia.
  - reflexivity.
Defined.

Lemma GET_without_token_calls_nothing_witness :
  Forall (fun ev => is_console_error ev = true)
    (events (call (GET world token_missing) start)) /\
  final_state (call (GET world token_missing) start) = start.
Proof.
  apply (GET_without_token_calls_nothing world token_missing start).
  reflexivity.
Defined.

Lemma GET_without_tenant_witness :
  In (console_error "No tenant provided")
    (events (call (GET world_empty_tenant tenant_blank) start)) /\
  none is_db_call (events (call (GET world_empty_tenant tenant_blank) start)) = true /\
  none is_session_call (events (call (GET world_empty_tenant tenant_blank) start))
    = true /\
  final_state (call (GET world_empty_tenant tenant_blank) start) = start /\
  (URL_parses world_empty_tenant (error_page world_empty_tenant "invalid-tenant")
     = true ->
   answer (call (GET world_empty_tenant tenant_blank) start)
     = Resolved (NextResponse_redirect "https://liveplus.pro/?error=invalid-tenant")).
Proof.
  apply (GET_without_tenant world_empty_tenant tenant_blank start
           payload_empty_tenant (VStr ""));
    reflexivity.
Defined.

Lemma GET_tenant_claim_not_a_string_witness :
  In (console_error "Tenant mismatch:")
    (events (call (GET world_numeric_tenant tenant_42) start)) /\
  none is_db_call (events (call (GET world_numeric_tenant tenant_42) start)) = true /\
  none is_session_call (events (call (GET world_numeric_tenant tenant_42) start))
    = true /\
  final_state (call (GET world_numeric_tenant tenant_42) start) = start /\
  (URL_parses world_numeric_tenant (error_page world_numeric_tenant "invalid-tenant")
     = true ->
   answer (call (GET world_numeric_tenant tenant_42) start)
     = Resolved (NextResponse_redirect "https://liveplus.pro/?error=invalid-tenant")).
Proof.
  apply (GET_tenant_claim_not_a_string world_numeric_tenant tenant_42 start
           payload_numeric_tenant (VNum "42") "42").
  - reflexivity.
  - reflexivity.
  - reflexivity.
  - reflexivity.
  - discriminate.
  - intros t. discriminate.
Defined.

Lemma GET_database_unreachable_witness :
  events (call (GET database_down good_request) start)
    = [call_jwt_verify (Some "good") "email-secret";
       call_connectDB (VStr "acme");
       console_error "Database connection failed:"] /\
  final_state (call (GET database_down good_request) start) = start /\
  (URL_parses database_down
     "https://app.liveplus.pro/acme/financeiro/?error=database-error" = true ->
   answer (call (GET database_down good_request) start)
     = Resolved (NextResponse_redirect
         "https://app.liveplus.pro/acme/financeiro/?error=database-error")).
Proof.
  apply (GET_database_unreachable database_down good_request start payload
           (VStr "acme") "acme" (Error_ "MongoNetworkError" "connection refused"));
    reflexivity.
Defined.

Lemma GET_model_unavailable_witness :
  In (console_error "Verification error:")
    (events (call (GET world_without_model good_request) start)) /\
  none is_user_call (events (call (GET world_without_model good_request) start))
    = true /\
  none is_session_call (events (call (GET world_without_model good_request) start))
    = true /\
  final_state (call (GET world_without_model good_request) start) = start /\
  answer (call (GET world_without_model good_request) start)
    = Rejected (TypeError "Invalid URL").
Proof.
  apply (GET_model_unavailable world_without_model good_request start payload
           (VStr "acme") "acme" "tenant_acme"
           (Error "Schema hasn't been registered for model User"));
    reflexivity.
Defined.

Lemma GET_stops_at_first_error_witness :
  none is_call [console_error "Verification error:"] = true.
Proof.
  apply (GET_stops_at_first_error world_without_env other_tenant start
           [call_jwt_verify (Some "good") "your-secret-key"]
           [console_error "Verification error:"]
           (console_error "Tenant mismatch:")).
  - reflexivity.
  - reflexivity.
Defined.

Lemma GET_failure_pages_witness :
  "https://liveplus.pro/?error=invalid-tenant"
    = page_for world (segment_of world other_tenant)
        (events (call (GET world other_tenant) start)).
Proof.
  apply (GET_failure_pages world other_tenant start
           "https://liveplus.pro/?error=invalid-tenant").
  reflexivity.
Defined.

Lemma GET_session_names_stored_user_witness :
  authenticated owner_session = true /\
  (exists decoded,
     jwt_verify world (token_param good_request) (EMAIL_SECRET world) = inr decoded /\
     get decoded "email" = inr (claim_email owner_session)) /\
  exists db u,
    In u (users (final_state (call (GET world good_request) start)) db) /\
    userId owner_session = _id u /\
    claim_tenantPath owner_session = tenantPath u /\
    claim_role owner_session = role u.
Proof.
  apply (GET_session_names_stored_user world good_request start owner_session
           "session-secret").
  apply (nth_error_In _ 7). reflexivity.
Defined.

Lemma GET_database_calls_stay_in_tenant_witness :
  tenant_database world good_request "tenant_acme".
Proof.
  apply (GET_database_calls_stay_in_tenant world good_request start
           (call_findOne "tenant_acme" (VStr "a@x.com")) "tenant_acme").
  - apply (nth_error_In _ 3). reflexivity.
  - reflexivity.
Defined.

Lemma GET_other_tenants_untouched_witness :
  users (final_state (call (GET world good_request) returning)) "tenant_other"
    = users returning "tenant_other".
Proof.
  apply (GET_other_tenants_untouched world good_request returning "tenant_other").
  intros (decoded & token_tenant & Hverify & Htenant & _ & Hdb).
  vm_compute in Hverify. injection Hverify as <-.
  vm_compute in Htenant. injection Htenant as <-.
  vm_compute in Hdb. discriminate Hdb.
Defined.

Lemma GET_returning_user_keeps_record_witness :
  isNew refreshed_user = false /\
  _id (fields refreshed_user) = _id stored_user /\
  email (fields refreshed_user) = email stored_user /\
  createdAt (fields refreshed_user) = createdAt stored_user /\
  tenantPath (fields refreshed_user) = tenantPath stored_user.
Proof.
  apply (GET_returning_user_keeps_record world good_request returning payload
           (VStr "a@x.com") (VStr "acme") "tenant_acme" stored_user
           "tenant_acme" refreshed_user).
  - reflexivity.
  - reflexivity.
  - reflexivity.
  - reflexivity.
  - reflexivity.
  - apply (nth_error_In _ 4). reflexivity.
Defined.

Lemma GET_new_user_record_witness :
  _id (fields first_user) = "id-0" /\
  email (fields first_user) = VStr "a@x.com" /\
  tenantPath (fields first_user) = VStr "acme" /\
  createdAt (fields first_user) = Some (today_at 0).
Proof.
  apply (GET_new_user_record world good_request start payload
           (VStr "a@x.com") (VStr "acme") "tenant_acme" "tenant_acme" first_user).
  - reflexivity.
  - reflexivity.
  - reflexivity.
  - reflexivity.
  - reflexivity.
  - apply (nth_error_In _ 5). reflexivity.
Defined.

End MoreExamples.

Section HeroExamples.
Import Floats Hero.
Local Open Scope float_scope.

Lemma handleScroll_at_the_top_witness :
  handleScroll (Window_ 0 800) = initial_rotation.
Proof.
  apply (handleScroll_at_the_top (Window_ 0 800)); reflexivity.
Defined.

Lemma handleScroll_zero_height_witness :
  (scrollY (Window_ 120 0) = 0 -> is_nan (handleScroll (Window_ 120 0)) = true) /\
  ((0 <? scrollY (Window_ 120 0)) = true -> handleScroll (Window_ 120 0) = 0).
Proof.
  apply (handleScroll_zero_height (Window_ 120 0)). reflexivity.
Defined.

End HeroExamples.
